(** * Verification of the conversational memory manager ([memory_system.py])

    A shallow embedding of [MemorySystem]: the short-term window, the
    persisted log, term extraction, relevance search, weekly summaries and the
    token-bounded context composer, followed by the properties stated about
    them.

    Conventions of the embedding.
    - A Python [str] is a list of Unicode code points ([N]); string literals of
      the source are written [py "..."] and decoded from UTF-8.
    - What the source takes from the Python runtime and not from its own text
      (the Unicode tables behind [\w], [\s], [str.split] and [str.lower], the
      parser [datetime.fromisoformat], float division and addition) is a
      field of the class [PyRuntime]; every general theorem holds for every
      runtime, and [latin1_runtime] is an instance to compute with.
    - An interaction is a record; [tokens_used] is optional because the source
      reads it with [dict.get] and a default.
    - The JSON files are [option (list _)]: [None] when the file does not
      exist.  Failing reads and writes of an existing file are not modelled. *)

From stdpp Require Import gmap.
From Stdlib Require Import String Ascii.
From Stdlib Require Import ZArith NArith QArith List Bool Lia Sorted
  Permutation.
Import ListNotations.

Local Open Scope Z_scope.
Local Open Scope list_scope.

(** ** Python strings *)

Definition char := N.
Definition str := list char.

Definition SP : char := 32%N.
Definition UNDERSCORE : char := 95%N.

Fixpoint utf8_decode (bs : list N) : str :=
  match bs with
  | [] => []
  | b :: rest =>
      if (b <? 128)%N then b :: utf8_decode rest
      else if (b <? 224)%N then
        match rest with
        | b1 :: rest1 => ((b mod 32) * 64 + b1 mod 64)%N :: utf8_decode rest1
        | _ => []
        end
      else if (b <? 240)%N then
        match rest with
        | b1 :: b2 :: rest2 =>
            ((b mod 16) * 4096 + (b1 mod 64) * 64 + b2 mod 64)%N
              :: utf8_decode rest2
        | _ => []
        end
      else
        match rest with
        | b1 :: b2 :: b3 :: rest3 =>
            ((b mod 8) * 262144 + (b1 mod 64) * 4096 + (b2 mod 64) * 64
             + b3 mod 64)%N :: utf8_decode rest3
        | _ => []
        end
  end.

(** [py "texto"] is the Python string written ["texto"] in the source. *)
Definition py (s : string) : str :=
  utf8_decode (List.map N_of_ascii (list_ascii_of_string s)).

Fixpoint str_eqb (a b : str) : bool :=
  match a, b with
  | [], [] => true
  | x :: a', y :: b' => (x =? y)%N && str_eqb a' b'
  | _, _ => false
  end.

Definition str_in (t : str) (l : list str) : bool :=
  List.existsb (str_eqb t) l.

(** [sep.join(parts)] *)
Fixpoint join (sep : str) (parts : list str) : str :=
  match parts with
  | [] => []
  | [p] => p
  | p :: rest => p ++ sep ++ join sep rest
  end.

(** [str(n)] for a non-negative integer. *)
Fixpoint digits_fuel (fuel : nat) (n : N) (acc : str) : str :=
  match fuel with
  | O => acc
  | S fuel' =>
      let acc' := (48 + n mod 10)%N :: acc in
      if (n <? 10)%N then acc' else digits_fuel fuel' (n / 10)%N acc'
  end.

Definition str_of_N (n : N) : str := digits_fuel (S (N.to_nat (N.log2 n))) n [].

Definition str_of_Z (z : Z) : str :=
  if z <? 0 then 45%N :: str_of_N (Z.to_N (- z)) else str_of_N (Z.to_N z).

(** [l[:stop]] and [l[start:]] with Python's treatment of negative bounds. *)
Definition slice_to {A} (l : list A) (stop : Z) : list A :=
  if stop <? 0
  then firstn (Z.to_nat (Z.of_nat (length l) + stop)) l
  else firstn (Z.to_nat stop) l.

Definition slice_from {A} (l : list A) (start : Z) : list A :=
  if start <? 0
  then skipn (Z.to_nat (Z.of_nat (length l) + start)) l
  else skipn (Z.to_nat start) l.

(** ** What the Python runtime provides *)

(** The date part of a [datetime]; the source only reads [year] and
    [isocalendar()]. *)
Record datetime := { year : Z; month : Z; day : Z }.

Class PyRuntime := {
  (** [Py_UNICODE_ISALNUM]: the alphanumeric part of the regex class [\w] *)
  isalnum : char -> bool;
  (** [Py_UNICODE_ISSPACE]: the regex class [\s] and the separators of
      [str.split()] *)
  isspace : char -> bool;
  (** [str.lower] *)
  lower : str -> str;
  (** [datetime.fromisoformat]; [None] stands for the raised [ValueError] *)
  fromisoformat : str -> option datetime;
  (** [int / int] and [float + float]; a finite float is a rational *)
  float_div : Z -> Z -> Q;
  float_add : Q -> Q -> Q
}.

(** ** Term extraction *)

Definition stop_words : list str :=
  List.map py
    ["el"; "la"; "de"; "que"; "y"; "en"; "un"; "es"; "se"; "no"; "te"; "lo";
     "le"; "da"; "su"; "por"; "son"; "con"; "para"; "una"; "del"; "las";
     "los"; "como"; "pero"; "sus"; "fue"; "ser"; "está"; "muy"; "más";
     "todo"; "bien"; "puede"; "esto"; "sin"; "sobre"; "también"; "me";
     "hasta"; "hay"; "donde"; "quien"; "desde"; "todos"; "durante"; "ella";
     "entre"]%string.

Section Terms.
Context {rt : PyRuntime}.

(** The regex class [\w]: alphanumeric or underscore. *)
Definition is_word (c : char) : bool := isalnum c || (c =? UNDERSCORE)%N.

(** [re.sub(r'[^\w\s]', ' ', text)] *)
Definition re_sub_nonword (text : str) : str :=
  List.map (fun c => if is_word c || isspace c then c else SP) text.

(** [text.split()]: maximal runs of non-whitespace characters.  [cur] is
    the run being read, newest character first. *)
Fixpoint split_from (cur : str) (text : str) : list str :=
  match text with
  | [] => match cur with [] => [] | _ => [rev cur] end
  | c :: text' =>
      if isspace c
      then match cur with
           | [] => split_from [] text'
           | _ => rev cur :: split_from [] text'
           end
      else split_from (c :: cur) text'
  end.

Definition split (text : str) : list str := split_from [] text.

Definition _extract_terms (text : str) : list str :=
  let text := re_sub_nonword text in
  let terms := split text in
  List.filter
    (fun term => (2 <? length term)%nat && negb (str_in term stop_words))
    terms.

End Terms.

(** ** Sorting and counting *)

(** [list.sort(key=..., reverse=True)] is a stable sort: elements with equal
    keys keep their order.  It is modelled by a stable insertion sort;
    [key_ge x y] reads "the key of [x] is at least the key of [y]". *)
Section Sort.
Context {A : Type} (key_ge : A -> A -> bool).

Fixpoint insert_desc (x : A) (l : list A) : list A :=
  match l with
  | [] => [x]
  | y :: l' => if key_ge x y then x :: l else y :: insert_desc x l'
  end.

Definition sort_desc (l : list A) : list A := fold_right insert_desc [] l.
End Sort.

(** [collections.Counter]: a dict from term to count, in insertion order. *)
Fixpoint counter_incr (t : str) (c : list (str * nat)) : list (str * nat) :=
  match c with
  | [] => [(t, 1%nat)]
  | (k, n) :: c' =>
      if str_eqb k t then (k, S n) :: c' else (k, n) :: counter_incr t c'
  end.

Definition Counter (terms : list str) : list (str * nat) :=
  fold_left (fun c t => counter_incr t c) terms [].

Fixpoint counter_get (t : str) (c : list (str * nat)) : option nat :=
  match c with
  | [] => None
  | (k, n) :: c' => if str_eqb k t then Some n else counter_get t c'
  end.

(** [Counter.most_common(n)]: the [n] largest counts, ties in insertion
    order. *)
Definition most_common (n : nat) (c : list (str * nat)) : list (str * nat) :=
  firstn n (sort_desc (fun a b => (snd b <=? snd a)%nat) c).

(** ** Data model *)

Record Interaction := {
  timestamp : str;
  user_message : str;
  assistant_response : str;
  metadata : list (str * str);
  tokens_used : option Z;
  relevance_score : Q
}.

Record Summary := {
  period : str;
  conversation_count : nat;
  date_range : str * str;
  main_topics : list str;
  total_tokens : Z;
  summary_text : str
}.

(** The constants of [config.py]. *)
Definition SHORT_TERM_MEMORY_LIMIT : Z := 10.
Definition LONG_TERM_SUMMARY_THRESHOLD : Z := 50.
Definition MAX_CONTEXT_TOKENS : Z := 6000.
Definition RELEVANCE_SEARCH_LIMIT : Z := 5.

Definition _estimate_tokens (text : str) : Z := Z.of_nat (length text) / 4.

Definition Qgtb (a b : Q) : bool := negb (Qle_bool a b).

Definition set_relevance_score (conv : Interaction) (score : Q) : Interaction :=
  {| timestamp := timestamp conv;
     user_message := user_message conv;
     assistant_response := assistant_response conv;
     metadata := metadata conv;
     tokens_used := tokens_used conv;
     relevance_score := score |}.

(** ** Relevance search *)

Section Search.
Context {rt : PyRuntime}.

Definition _calculate_relevance_score (query_terms : list str) (text : str)
  : Q :=
  let text_terms := _extract_terms text in
  match text_terms, query_terms with
  | [], _ | _, [] => 0%Q
  | _, _ =>
      let text_freq := Counter text_terms in
      fold_left
        (fun score term =>
           match counter_get term text_freq with
           | Some n =>
               let tf :=
                 float_div (Z.of_nat n) (Z.of_nat (length text_terms)) in
               float_add score tf
           | None => score
           end)
        query_terms 0%Q
  end.

(** The text scored for a record: the f-string
    [f"{conv['user_message']} {conv['assistant_response']}".lower()]. *)
Definition conv_text (conv : Interaction) : str :=
  lower (user_message conv ++ [SP] ++ assistant_response conv).

(** The loop of [search_relevant_conversations] over [all_history]. *)
Definition score_conversations (query_terms : list str)
    (all_history : list Interaction) : list Interaction :=
  fold_left
    (fun scored_conversations conv =>
       let score := _calculate_relevance_score query_terms (conv_text conv) in
       if Qgtb score 0
       then scored_conversations ++ [set_relevance_score conv score]
       else scored_conversations)
    all_history [].

Definition by_relevance (x y : Interaction) : bool :=
  Qle_bool (relevance_score y) (relevance_score x).

Definition search_relevant_conversations
    (memory_file : option (list Interaction)) (query : str)
    (limit : option Z) : list Interaction :=
  let limit :=
    match limit with None => RELEVANCE_SEARCH_LIMIT | Some n => n end in
  let all_history :=
    match memory_file with Some history => history | None => [] end in
  match all_history with
  | [] => []
  | _ =>
      let query_terms := _extract_terms (lower query) in
      let scored_conversations :=
        score_conversations query_terms all_history in
      slice_to (sort_desc by_relevance scored_conversations) limit
  end.

End Search.

(** ** Calendar arithmetic of [datetime]

    [date.isocalendar()] does not depend on the runtime instance; the
    definitions below transcribe the reference algorithm of the [datetime]
    module (proleptic Gregorian ordinals, day 1 = 0001-01-01, a Monday). *)

Definition is_leap (y : Z) : bool :=
  (y mod 4 =? 0) && (negb (y mod 100 =? 0) || (y mod 400 =? 0)).

Definition days_before_year (y : Z) : Z :=
  let y := y - 1 in y * 365 + y / 4 - y / 100 + y / 400.

Definition DAYS_BEFORE_MONTH : list Z :=
  [0; 0; 31; 59; 90; 120; 151; 181; 212; 243; 273; 304; 334].

Definition days_before_month (y m : Z) : Z :=
  nth (Z.to_nat m) DAYS_BEFORE_MONTH 0
  + (if (2 <? m) && is_leap y then 1 else 0).

Definition ymd2ord (y m d : Z) : Z :=
  days_before_year y + days_before_month y m + d.

(** Ordinal of the Monday that starts ISO week 1 of year [y]. *)
Definition isoweek1monday (y : Z) : Z :=
  let firstday := ymd2ord y 1 1 in
  let firstweekday := (firstday + 6) mod 7 in
  let week1monday := firstday - firstweekday in
  if 3 <? firstweekday then week1monday + 7 else week1monday.

(** [date.isocalendar()]: ISO year, ISO week (1..53), ISO weekday (1..7). *)
Definition isocalendar (date : datetime) : Z * Z * Z :=
  let y := year date in
  let today := ymd2ord y (month date) (day date) in
  let week1monday := isoweek1monday y in
  let week := (today - week1monday) / 7 in
  let wday := (today - week1monday) mod 7 in
  if week <? 0 then
    let week1monday' := isoweek1monday (y - 1) in
    (y - 1, (today - week1monday') / 7 + 1, (today - week1monday') mod 7 + 1)
  else if (52 <=? week) && (isoweek1monday (y + 1) <=? today) then
    (y + 1, 1, wday + 1)
  else (y, week + 1, wday + 1).

Definition iso_year (date : datetime) : Z := fst (fst (isocalendar date)).
Definition iso_week (date : datetime) : Z := snd (fst (isocalendar date)).

(** ** Summaries *)

(** [f"{date.year}-W{date.isocalendar()[1]}"] *)
Definition week_key (date : datetime) : str :=
  str_of_Z (year date) ++ py "-W" ++ str_of_Z (iso_week date).

(** [weekly_groups]: a dict from week key to the list of its records, in
    insertion order.  [group_append] creates the entry when the key is new and
    appends the record to it. *)
Fixpoint group_append (k : str) (conv : Interaction)
    (groups : list (str * list Interaction)) : list (str * list Interaction) :=
  match groups with
  | [] => [(k, [conv])]
  | (k', convs) :: groups' =>
      if str_eqb k' k then (k', convs ++ [conv]) :: groups'
      else (k', convs) :: group_append k conv groups'
  end.

Definition sum_Z (l : list Z) : Z := fold_right Z.add 0 l.

Section Summaries.
Context {rt : PyRuntime}.

(** [conversations[0]] raises [IndexError] on an empty list: [None]. *)
Definition _create_weekly_summary (week : str)
    (conversations : list Interaction) : option Summary :=
  match conversations with
  | [] => None
  | first :: _ =>
      let all_text :=
        join [SP]
          (List.map
             (fun c => user_message c ++ [SP] ++ assistant_response c)
             conversations) in
      let terms := _extract_terms (lower all_text) in
      let top_terms := most_common 10 (Counter terms) in
      Some
        {| period := week;
           conversation_count := length conversations;
           date_range := (timestamp first, timestamp (last conversations first));
           main_topics := List.map fst top_terms;
           total_tokens :=
             sum_Z
               (List.map
                  (fun c => match tokens_used c with Some t => t | None => 0 end)
                  conversations);
           summary_text :=
             py "Período " ++ week ++ py ": "
             ++ str_of_N (N.of_nat (length conversations))
             ++ py " conversaciones sobre temas como "
             ++ join (py ", ") (List.map fst (firstn 5 top_terms)) |}
  end.

(** First loop of [_group_conversations_by_time]: a record whose timestamp
    does not parse is skipped ([except Exception: continue]). *)
Definition group_by_week (conversations : list Interaction)
  : list (str * list Interaction) :=
  fold_left
    (fun weekly_groups conv =>
       match fromisoformat (timestamp conv) with
       | Some date => group_append (week_key date) conv weekly_groups
       | None => weekly_groups
       end)
    conversations [].

(** Second loop; an exception of [_create_weekly_summary] would leave the
    function. *)
Fixpoint summarize_weeks (weekly_groups : list (str * list Interaction))
    (summaries : list Summary) : option (list Summary) :=
  match weekly_groups with
  | [] => Some summaries
  | (week, convs) :: rest =>
      if (5 <=? length convs)%nat then
        match _create_weekly_summary week convs with
        | Some summary => summarize_weeks rest (summaries ++ [summary])
        | None => None
        end
      else summarize_weeks rest summaries
  end.

Definition _group_conversations_by_time (conversations : list Interaction)
  : option (list Summary) :=
  summarize_weeks (group_by_week conversations) [].

End Summaries.

(** ** The memory system and its files *)

Record State := {
  short_term_memory : list Interaction;
  conversation_summaries : list Summary;
  (** [MEMORY_FILE_PATH] and [SUMMARY_FILE_PATH] *)
  memory_file : option (list Interaction);
  summary_file : option (list Summary)
}.

Definition with_short_term (st : State) (w : list Interaction) : State :=
  {| short_term_memory := w;
     conversation_summaries := conversation_summaries st;
     memory_file := memory_file st;
     summary_file := summary_file st |}.

Definition with_memory_file (st : State) (f : option (list Interaction))
  : State :=
  {| short_term_memory := short_term_memory st;
     conversation_summaries := conversation_summaries st;
     memory_file := f;
     summary_file := summary_file st |}.

Definition with_summary_file (st : State) (f : option (list Summary)) : State :=
  {| short_term_memory := short_term_memory st;
     conversation_summaries := conversation_summaries st;
     memory_file := memory_file st;
     summary_file := f |}.

Definition read_json {A} (file : option (list A)) : list A :=
  match file with Some content => content | None => [] end.

Section Memory.
Context {rt : PyRuntime}.

Definition _save_to_long_term (st : State) (interaction : Interaction)
  : State :=
  let history := read_json (memory_file st) in
  with_memory_file st (Some (history ++ [interaction])).

Definition _save_summaries (st : State) (summaries : list Summary) : State :=
  let existing_summaries := read_json (summary_file st) in
  with_summary_file st (Some (existing_summaries ++ summaries)).

Definition _create_conversation_summary (st : State)
    (history : list Interaction) : State :=
  let conversations_to_summarize :=
    slice_to history (- SHORT_TERM_MEMORY_LIMIT) in
  if (length conversations_to_summarize <? 10)%nat then st
  else
    match _group_conversations_by_time conversations_to_summarize with
    | Some summaries => _save_summaries st summaries
    | None => st
    end.

Definition _check_and_summarize (st : State) : State :=
  match memory_file st with
  | None => st
  | Some history =>
      if LONG_TERM_SUMMARY_THRESHOLD <=? Z.of_nat (length history)
      then _create_conversation_summary st history
      else st
  end.

(** The record built by [add_interaction]; [now] is
    [datetime.now().isoformat()]. *)
Definition new_interaction (now user_message assistant_response : str)
    (metadata : list (str * str)) : Interaction :=
  {| timestamp := now;
     user_message := user_message;
     assistant_response := assistant_response;
     metadata := metadata;
     tokens_used :=
       Some (_estimate_tokens (user_message ++ assistant_response));
     relevance_score := 1%Q |}.

Definition add_interaction (st : State)
    (now user_message assistant_response : str)
    (metadata : list (str * str)) : State :=
  let interaction :=
    new_interaction now user_message assistant_response metadata in
  let window := short_term_memory st ++ [interaction] in
  let window :=
    if SHORT_TERM_MEMORY_LIMIT <? Z.of_nat (length window)
    then tl window                      (* pop(0) *)
    else window in
  let st := with_short_term st window in
  let st := _save_to_long_term st interaction in
  _check_and_summarize st.

Definition load_from_long_term (st : State) : State :=
  match memory_file st with
  | Some history =>
      with_short_term st (slice_from history (- SHORT_TERM_MEMORY_LIMIT))
  | None => st
  end.

End Memory.

(** ** Context composition *)

Inductive Role := user | assistant | system.

Record Message := { role : Role; content : str }.

(** The provenance tags ["recent"], [f"relevant (score: {s:.2f})"] and
    ["summary"]; the relevant tag keeps the score it prints. *)
Inductive Source := recent | relevant (score : Q) | summary.

Record Context := {
  context_messages : list Message;
  context_sources : list Source;
  current_tokens : Z
}.

(** [conv.get('tokens_used', self._estimate_tokens(...))] *)
Definition stored_tokens (conv : Interaction) : Z :=
  match tokens_used conv with
  | Some t => t
  | None => _estimate_tokens (user_message conv ++ assistant_response conv)
  end.

Definition same_timestamp (conv c : Interaction) : bool :=
  str_eqb (timestamp c) (timestamp conv).

Section Composer.
Context {rt : PyRuntime}.

(** Step 1, over [reversed(self.short_term_memory)]; returning [ctx] at the
    first record that does not fit is the [break]. *)
Fixpoint recency_loop (max_tokens : Z) (newest_first : list Interaction)
    (ctx : Context) : Context :=
  match newest_first with
  | [] => ctx
  | interaction :: older =>
      let interaction_tokens := stored_tokens interaction in
      if max_tokens <? current_tokens ctx + interaction_tokens then ctx
      else
        let messages :=
          {| role := user; content := user_message interaction |}
            :: context_messages ctx in                       (* insert(0, _) *)
        let messages :=
          {| role := assistant; content := assistant_response interaction |}
            :: messages in                                   (* insert(0, _) *)
        recency_loop max_tokens older
          {| context_messages := messages;
             context_sources := recent :: context_sources ctx;
             current_tokens := current_tokens ctx + interaction_tokens |}
  end.

(** Step 2, the body of the loop over the search results. *)
Definition relevance_step (max_tokens : Z) (window : list Interaction)
    (ctx : Context) (conv : Interaction) : Context :=
  if negb (List.existsb (same_timestamp conv) window) then
    let conv_tokens := stored_tokens conv in
    if current_tokens ctx + conv_tokens <=? max_tokens then
      {| context_messages :=
           context_messages ctx
           ++ [ {| role := user; content := user_message conv |};
                {| role := assistant; content := assistant_response conv |} ];
         context_sources :=
           context_sources ctx ++ [relevant (relevance_score conv)];
         current_tokens := current_tokens ctx + conv_tokens |}
    else ctx
  else ctx.

Definition _get_relevant_summaries (summaries : list Summary) (query : str)
  : str :=
  match summaries with
  | [] => []
  | _ =>
      let query_terms := _extract_terms (lower query) in
      let relevant_summaries :=
        List.map summary_text
          (List.filter
             (fun s =>
                List.existsb (fun t => str_in t (main_topics s)) query_terms)
             summaries) in
      join [SP] (firstn 2 relevant_summaries)
  end.

Definition summary_prefix : str := py "Resumen de conversaciones anteriores: ".

Definition get_intelligent_context (st : State) (current_message : str)
    (max_tokens : option Z) : list Message * list Source :=
  let max_tokens :=
    match max_tokens with None => MAX_CONTEXT_TOKENS | Some n => n end in
  let ctx :=
    recency_loop max_tokens (rev (short_term_memory st))
      {| context_messages := []; context_sources := [];
         current_tokens := 0 |} in
  let remaining_tokens := max_tokens - current_tokens ctx in
  let ctx :=
    if 200 <? remaining_tokens then
      let relevant_conversations :=
        search_relevant_conversations (memory_file st) current_message
          (Some 3) in
      fold_left (relevance_step max_tokens (short_term_memory st))
        relevant_conversations ctx
    else ctx in
  let ctx :=
    match conversation_summaries st with
    | [] => ctx
    | _ =>
        if 100 <? remaining_tokens then
          let summary_text :=
            _get_relevant_summaries (conversation_summaries st)
              current_message in
          match summary_text with
          | [] => ctx
          | _ =>
              let summary_tokens := _estimate_tokens summary_text in
              if current_tokens ctx + summary_tokens <=? max_tokens then
                {| context_messages :=
                     {| role := system;
                        content := summary_prefix ++ summary_text |}
                       :: context_messages ctx;
                   context_sources := summary :: context_sources ctx;
                   current_tokens := current_tokens ctx |}
              else ctx
          end
        else ctx
    end in
  (context_messages ctx, context_sources ctx).

End Composer.

(** ** Object-level model of the search

    The definitions above work on values.  In the source an interaction is a
    dict object with an identity: [self.short_term_memory] holds references,
    [json.load] builds a new object per record of the file, [conv.copy()]
    builds another one, and [conv_copy['relevance_score'] = score] mutates the
    object it is given.  [Objects] models the search at that level: a store
    of objects by identity, the window as a list of references, and the file
    as the values it serialises. *)

Module Objects.

Record Store := {
  objects : gmap nat Interaction;
  window : list nat;
  log : option (list Interaction)
}.

Definition with_objects (s : Store) (objs : gmap nat Interaction) : Store :=
  {| objects := objs; window := window s; log := log s |}.

(** A new dict object holding [v]; its identity is not in use. *)
Definition new_object (objs : gmap nat Interaction) (v : Interaction)
  : nat * gmap nat Interaction :=
  let l := fresh (dom objs) in (l, <[l := v]> objs).

(** [json.load(f)]: one new object per record, in file order. *)
Definition json_load (records : list Interaction)
    (objs : gmap nat Interaction) : list nat * gmap nat Interaction :=
  fold_left
    (fun acc v =>
       let '(l, objs') := new_object (snd acc) v in (fst acc ++ [l], objs'))
    records ([], objs).

Definition score_at (objs : gmap nat Interaction) (l : nat) : Q :=
  match objs !! l with Some d => relevance_score d | None => 0%Q end.

Definition by_relevance_at (objs : gmap nat Interaction) (x y : nat) : bool :=
  Qle_bool (score_at objs y) (score_at objs x).

Section Search.
Context {rt : PyRuntime}.

(** One iteration of [for conv in all_history]. *)
Definition score_step (query_terms : list str)
    (acc : list nat * gmap nat Interaction) (conv : nat)
  : list nat * gmap nat Interaction :=
  match snd acc !! conv with
  | None => acc
  | Some d =>
      let score := _calculate_relevance_score query_terms (conv_text d) in
      if Qgtb score 0 then
        let '(conv_copy, objs) := new_object (snd acc) d in
        let objs :=
          alter (fun c => set_relevance_score c score) conv_copy objs in
        (fst acc ++ [conv_copy], objs)
      else acc
  end.

Definition search_relevant_conversations (s : Store) (query : str)
    (limit : option Z) : list nat * Store :=
  let limit :=
    match limit with None => RELEVANCE_SEARCH_LIMIT | Some n => n end in
  match log s with
  | None => ([], s)
  | Some records =>
      let '(all_history, objs) := json_load records (objects s) in
      match all_history with
      | [] => ([], with_objects s objs)
      | _ =>
          let query_terms := _extract_terms (lower query) in
          let '(scored_conversations, objs) :=
            fold_left (score_step query_terms) all_history ([], objs) in
          (slice_to
             (sort_desc (by_relevance_at objs) scored_conversations) limit,
           with_objects s objs)
      end
  end.

End Search.

End Objects.

(** ** A runtime instance to compute with

    [latin1_runtime] classifies the code points below 256 as Python does and
    treats every other code point as neither alphanumeric nor whitespace;
    its [fromisoformat] accepts the two layouts that
    [datetime.now().isoformat()] writes; its float operations are exact. *)

Definition in_range (lo hi c : N) : bool := ((lo <=? c) && (c <=? hi))%N.

Definition latin1_isalnum (c : char) : bool :=
  in_range 48 57 c || in_range 65 90 c || in_range 97 122 c
  || (c =? 170)%N || in_range 178 179 c || (c =? 181)%N
  || in_range 185 186 c || in_range 188 190 c
  || in_range 192 214 c || in_range 216 246 c || in_range 248 255 c.

Definition latin1_isspace (c : char) : bool :=
  in_range 9 13 c || in_range 28 32 c || (c =? 133)%N || (c =? 160)%N.

Definition latin1_lower (text : str) : str :=
  List.map
    (fun c =>
       if in_range 65 90 c || in_range 192 214 c || in_range 216 222 c
       then (c + 32)%N else c)
    text.

Fixpoint number (cs : str) (acc : Z) : option Z :=
  match cs with
  | [] => Some acc
  | c :: cs' =>
      if in_range 48 57 c then number cs' (10 * acc + (Z.of_N c - 48))
      else None
  end.

Definition days_in_month (y m : Z) : Z :=
  if (m =? 2) && is_leap y then 29
  else nth (Z.to_nat m) [0; 31; 28; 31; 30; 31; 30; 31; 31; 30; 31; 30; 31] 0.

(** [YYYY-MM-DDTHH:MM:SS] and [YYYY-MM-DDTHH:MM:SS.ffffff] *)
Definition parse_isoformat (s : str) : option datetime :=
  let field i n := number (firstn n (skipn i s)) 0 in
  let sep i c :=
    match nth_error s i with Some x => (x =? c)%N | None => false end in
  let n := length s in
  if ((n =? 19)%nat || ((n =? 26)%nat && sep 19%nat 46%N))
     && sep 4%nat 45%N && sep 7%nat 45%N && sep 10%nat 84%N
     && sep 13%nat 58%N && sep 16%nat 58%N
  then
    match field 0%nat 4%nat, field 5%nat 2%nat, field 8%nat 2%nat,
          field 11%nat 2%nat, field 14%nat 2%nat, field 17%nat 2%nat,
          field 20%nat 6%nat with
    | Some y, Some m, Some d, Some hh, Some mm, Some ss, Some _ =>
        if (1 <=? y) && (1 <=? m) && (m <=? 12) && (1 <=? d)
           && (d <=? days_in_month y m)
           && (hh <? 24) && (mm <? 60) && (ss <? 60)
        then Some {| year := y; month := m; day := d |}
        else None
    | _, _, _, _, _, _, _ => None
    end
  else None.

Definition latin1_runtime : PyRuntime :=
  {| isalnum := latin1_isalnum;
     isspace := latin1_isspace;
     lower := latin1_lower;
     fromisoformat := parse_isoformat;
     float_div := fun a b => Qred (inject_Z a / inject_Z b);
     float_add := fun x y => Qred (x + y) |}.


(** ** Vocabulary of the statements *)

(** The last [n] elements of a list. *)
Definition last_n {A} (n : nat) (l : list A) : list A :=
  skipn (length l - n) l.

(** One call of [add_interaction]: the clock reading and the arguments. *)
Record Call := {
  call_now : str;
  call_user : str;
  call_assistant : str;
  call_metadata : list (str * str)
}.

Definition interaction_of (c : Call) : Interaction :=
  new_interaction (call_now c) (call_user c) (call_assistant c)
    (call_metadata c).

Definition run_calls {rt : PyRuntime} (st : State) (calls : list Call) : State :=
  fold_left
    (fun st c =>
       add_interaction st (call_now c) (call_user c) (call_assistant c)
         (call_metadata c))
    calls st.

(** [limit] as the search uses it: the default when [None]. *)
Definition effective_limit (limit : option Z) : Z :=
  match limit with None => RELEVANCE_SEARCH_LIMIT | Some n => n end.

(** The score the search gives a record for a query. *)
Definition query_score {rt : PyRuntime} (query : str) (conv : Interaction) : Q :=
  _calculate_relevance_score (_extract_terms (lower query)) (conv_text conv).

(** The corpus records with a positive score, in corpus order, each carrying
    its score. *)
Definition positive_in_corpus_order {rt : PyRuntime} (query : str)
    (corpus : list Interaction) : list Interaction :=
  List.map (fun c => set_relevance_score c (query_score query c))
    (List.filter (fun c => Qgtb (query_score query c) 0) corpus).

Definition has_score (q : Q) (r : Interaction) : bool :=
  Qeq_bool (relevance_score r) q.

Definition score_desc (a b : Interaction) : Prop :=
  (relevance_score b <= relevance_score a)%Q.

(** The messages the composer emits for one unit of each kind. *)
Definition recent_messages (i : Interaction) : list Message :=
  [ {| role := assistant; content := assistant_response i |};
    {| role := user; content := user_message i |} ].

Definition relevant_messages (c : Interaction) : list Message :=
  [ {| role := user; content := user_message c |};
    {| role := assistant; content := assistant_response c |} ].

Definition summary_messages {rt : PyRuntime} (text : str) : list Message :=
  [ {| role := system; content := summary_prefix ++ text |} ].

(** The order the specification gives for a recency unit: the user message,
    then the assistant response. *)
Definition user_then_assistant (i : Interaction) : list Message :=
  [ {| role := user; content := user_message i |};
    {| role := assistant; content := assistant_response i |} ].

Definition effective_budget (max_tokens : option Z) : Z :=
  match max_tokens with None => MAX_CONTEXT_TOKENS | Some n => n end.

(** Estimated cost of a list of interactions and of a summary text. *)
Definition tokens_of (l : list Interaction) : Z :=
  sum_Z (List.map stored_tokens l).

Definition summary_tokens_of (texts : list str) : Z :=
  sum_Z (List.map _estimate_tokens texts).

(** ** Example data *)

Definition record_of (ts u a : string) (t : Z) : Interaction :=
  {| timestamp := py ts; user_message := py u; assistant_response := py a;
     metadata := []; tokens_used := Some t; relevance_score := 1 |}.

Definition python_corpus : list Interaction :=
  [ record_of "2024-03-04T10:00:00" "python listas"
      "las listas de python son mutables" 11;
    record_of "2024-03-05T10:00:00" "clima" "hace sol" 3;
    record_of "2024-03-06T10:00:00" "python dict" "python python" 6;
    record_of "2024-03-07T10:00:00" "python" "python" 3 ].

Definition greeting : Interaction :=
  record_of "2024-03-04T10:00:00" "hola" "buenos dias" 3.

Definition greeting_state : State :=
  {| short_term_memory := [greeting]; conversation_summaries := [];
     memory_file := Some [greeting]; summary_file := None |}.

(** A window whose only interaction costs no token: [len("y" + "ok") // 4]. *)
Definition short_reply : Interaction :=
  new_interaction (py "2024-03-04T10:00:00") (py "y") (py "ok") [].

Definition short_reply_state : State :=
  {| short_term_memory := [short_reply]; conversation_summaries := [];
     memory_file := Some [short_reply]; summary_file := None |}.

(** The pipeline of the specification for term extraction, step by step:
    lowercase, replace every character that is neither alphanumeric nor
    whitespace with a space, split on whitespace, drop the terms of length at
    most 2, drop the stop words. *)
Definition extract_terms_reference {rt : PyRuntime} (text : str) : list str :=
  let lowered := lower text in
  let cleaned :=
    List.map (fun c => if isalnum c || isspace c then c else SP) lowered in
  let terms := split cleaned in
  let long_enough :=
    List.filter (fun t => negb (length t <=? 2)%nat) terms in
  List.filter (fun t => negb (str_in t stop_words)) long_enough.

(** Vocabulary for the extracted terms. *)
Definition nonspace {rt : PyRuntime} (c : char) : Prop := isspace c = false.

(** A term: not empty and free of whitespace. *)
Definition is_term {rt : PyRuntime} (t : str) : Prop :=
  t <> [] /\ Forall nonspace t.

(** A character that [re.sub(r'[^\w\s]', ' ', _)] leaves in place. *)
Definition kept_char {rt : PyRuntime} (c : char) : Prop :=
  is_word c || isspace c = true.

(** Whether [datetime.fromisoformat] accepts the timestamp of a record. *)
Definition parsable {rt : PyRuntime} (conv : Interaction) : bool :=
  match fromisoformat (timestamp conv) with Some _ => true | None => false end.

(** The ISO year and ISO week of a record's timestamp. *)
Definition iso_week_of {rt : PyRuntime} (conv : Interaction) : option (Z * Z) :=
  match fromisoformat (timestamp conv) with
  | Some date => Some (iso_year date, iso_week date)
  | None => None
  end.

(** Three records of the first days of 2024 and two of its last days: ISO
    weeks 2024-W01 and 2025-W01. *)
Definition year_boundary_records : list Interaction :=
  [ record_of "2024-01-01T09:00:00" "python listas" "son mutables" 6;
    record_of "2024-01-02T09:00:00" "python tuplas" "son inmutables" 6;
    record_of "2024-01-03T09:00:00" "python dict" "son tablas" 5;
    record_of "2024-12-30T09:00:00" "clima hoy" "hace sol" 4;
    record_of "2024-12-31T09:00:00" "clima mañana" "llueve" 4 ].

(** Five records of one ISO week, 2025-W01, on both sides of the new year. *)
Definition new_year_week_records : list Interaction :=
  [ record_of "2024-12-30T09:00:00" "clima hoy" "hace sol" 4;
    record_of "2024-12-31T09:00:00" "clima mañana" "llueve" 4;
    record_of "2025-01-01T09:00:00" "python listas" "son mutables" 6;
    record_of "2025-01-02T09:00:00" "python tuplas" "son inmutables" 6;
    record_of "2025-01-03T09:00:00" "python dict" "son tablas" 5 ].

(** The references [refs] designate, in order, objects holding [vals]. *)
Definition refs_hold (objs : gmap nat Interaction) (refs : list nat)
    (vals : list Interaction) : Prop :=
  Forall2 (fun l v => objs !! l = Some v) refs vals.

(** A persisted log of 49 records over one year: the forty oldest are three
    of the first days of 2024, one per week from February to September, and
    two of the last days of 2024; the nine newest are of February 2025. *)
Definition day_record (date : string) : Interaction :=
  record_of (date ++ "T09:00:00") "consulta python" "respuesta breve" 7.

Definition year_log : list Interaction :=
  List.map day_record
   ([
    "2024-01-01"; "2024-01-02"; "2024-01-03"; "2024-02-05"; "2024-02-12";
    "2024-02-19"; "2024-02-26"; "2024-03-04"; "2024-03-11"; "2024-03-18";
    "2024-03-25"; "2024-04-01"; "2024-04-08"; "2024-04-15"; "2024-04-22";
    "2024-04-29"; "2024-05-06"; "2024-05-13"; "2024-05-20"; "2024-05-27";
    "2024-06-03"; "2024-06-10"; "2024-06-17"; "2024-06-24"; "2024-07-01";
    "2024-07-08"; "2024-07-15"; "2024-07-22"; "2024-07-29"; "2024-08-05";
    "2024-08-12"; "2024-08-19"; "2024-08-26"; "2024-09-02"; "2024-09-09";
    "2024-09-16"; "2024-09-23"; "2024-09-30"; "2024-12-30"; "2024-12-31"
    ]%string ++ [
    "2025-02-03"; "2025-02-04"; "2025-02-05"; "2025-02-06"; "2025-02-07";
    "2025-02-08"; "2025-02-09"; "2025-02-10"; "2025-02-11"
    ]%string).

Definition year_log_state : State :=
  load_from_long_term
    {| short_term_memory := []; conversation_summaries := [];
       memory_file := Some year_log; summary_file := None |}.

(** The records filed under the key [k] in a dict of week buckets. *)
Fixpoint bucket (k : str) (groups : list (str * list Interaction))
  : list Interaction :=
  match groups with
  | [] => []
  | (k', convs) :: groups' => if str_eqb k' k then convs else bucket k groups'
  end.

(** Whether the timestamp of a record parses and gives the bucket key [k]. *)
Definition has_week_key {rt : PyRuntime} (k : str) (conv : Interaction) : bool :=
  match fromisoformat (timestamp conv) with
  | Some date => str_eqb (week_key date) k
  | None => false
  end.

Definition full_bucket (g : str * list Interaction) : bool :=
  (5 <=? length (snd g))%nat.

(** Twelve calls of [add_interaction] on a new system. *)
Definition numbered_call (k : nat) : Call :=
  {| call_now := py "2024-03-04T10:00:" ++ str_of_N (N.of_nat (10 + k));
     call_user := py "pregunta " ++ str_of_N (N.of_nat k);
     call_assistant := py "respuesta " ++ str_of_N (N.of_nat k);
     call_metadata := [] |}.

Definition twelve_calls : list Call := List.map numbered_call (seq 1 12).

Definition new_system : State :=
  {| short_term_memory := []; conversation_summaries := [];
     memory_file := None; summary_file := None |}.

Definition weather_corpus : list Interaction :=
  [ record_of "2024-03-04T10:00:00" "What's the weather like tomorrow?"
      "Sunny with light wind" 13;
    record_of "2024-03-05T10:00:00" "Recommend a pasta recipe"
      "Try spaghetti aglio e olio" 12 ].

(** ** Further operations of [MemorySystem] *)




Definition clear_short_term (st : State) : State := with_short_term st [].



(** *** [show_recent_history]

    The function prints; the model returns what is printed, one item per
    [print] call, and [render] gives the text of an item. *)
Inductive Printed :=
| NoHistory
| Header (announced : Z)
| EntryHead (i : nat) (timestamp : str) (tokens : Z)
| UserLine (text : str)
| AssistantLine (text : str)
| BlankLine
| TotalLine (total : Z)
| Footer.

Definition NL : char := 10%N.

Definition render (p : Printed) : str :=
  match p with
  | NoHistory => py "No hay historial reciente."
  | Header n =>
      NL :: py "--- Historial reciente (últimas " ++ str_of_Z n
      ++ py " interacciones) ---"
  | EntryHead i ts tokens =>
      str_of_N (N.of_nat i) ++ py ". [" ++ ts ++ py "] (" ++ str_of_Z tokens
      ++ py " tokens)"
  | UserLine text => py "   Usuario: " ++ text
  | AssistantLine text => py "   Asistente: " ++ text
  | BlankLine => []
  | TotalLine total => py "Total tokens en memoria reciente: " ++ str_of_Z total
  | Footer => py "--- Fin del historial ---" ++ [NL]
  end.

(** [text[:100] + "..." if len(text) > 100 else text] *)
Definition shorten (text : str) : str :=
  if (100 <? length text)%nat then firstn 100 text ++ py "..." else text.

(** The body of the loop over [enumerate(recent, 1)], with [total_tokens]. *)
Fixpoint history_entries (i : nat) (recent : list Interaction)
    (total_tokens : Z) : list Printed * Z :=
  match recent with
  | [] => ([], total_tokens)
  | interaction :: rest =>
      let tokens :=
        match tokens_used interaction with Some t => t | None => 0 end in
      let total_tokens := total_tokens + tokens in
      let '(printed, total) := history_entries (S i) rest total_tokens in
      (EntryHead i (timestamp interaction) tokens
         :: UserLine (shorten (user_message interaction))
         :: AssistantLine (shorten (assistant_response interaction))
         :: BlankLine :: printed,
       total)
  end.

Definition show_recent_history (st : State) (limit : Z) : list Printed :=
  match short_term_memory st with
  | [] => [NoHistory]
  | _ =>
      let announced :=
        Z.min limit (Z.of_nat (length (short_term_memory st))) in
      let recent := slice_from (short_term_memory st) (- limit) in
      let '(printed, total_tokens) := history_entries 1 recent 0 in
      Header announced :: printed ++ [TotalLine total_tokens; Footer]
  end.

(** ** The caller in [azure_client.py] *)

(** [AzureOpenAIClient._estimate_tokens]: all the characters of the messages,
    divided by 4. *)
Definition client_estimate_tokens (messages : list Message) : Z :=
  sum_Z (List.map (fun msg => Z.of_nat (length (content msg))) messages) / 4.

(** ** Vocabulary of the further statements *)

(** The log as the functions read it: empty when the file does not exist. *)
Definition log_of (st : State) : list Interaction := read_json (memory_file st).



(** How many times a term occurs in a sequence of terms. *)
Definition occurrences (t : str) (terms : list str) : nat :=
  length (List.filter (str_eqb t) terms).

(** The text [_create_weekly_summary] extracts its terms from. *)
Definition bucket_text {rt : PyRuntime} (conversations : list Interaction)
  : str :=
  lower
    (join [SP]
       (List.map (fun c => user_message c ++ [SP] ++ assistant_response c)
          conversations)).

Definition count_ge (a b : str * nat) : bool := (snd b <=? snd a)%nat.

(** [counter[t]]: the count of a term, 0 when it has no entry. *)
Definition count_of (t : str) (c : list (str * nat)) : nat :=
  match counter_get t c with Some n => n | None => 0%nat end.

(** The numbered entries among what was printed: number, timestamp and
    token count of each. *)
Fixpoint entry_heads (out : list Printed) : list (nat * str * Z) :=
  match out with
  | [] => []
  | EntryHead i ts tokens :: out' => (i, ts, tokens) :: entry_heads out'
  | _ :: out' => entry_heads out'
  end.

(** The token count [show_recent_history] and [get_memory_stats] read:
    [conv.get('tokens_used', 0)]. *)
Definition tokens_or_zero (conv : Interaction) : Z :=
  match tokens_used conv with Some t => t | None => 0 end.

Definition numbered_from (i : nat) (l : list Interaction)
  : list (nat * str * Z) :=
  List.map (fun p => (fst p, timestamp (snd p), tokens_or_zero (snd p)))
    (combine (seq i (length l)) l).

(** A system that holds one summary about python and nothing else. *)
Definition python_summary : Summary :=
  {| period := py "2024-W10";
     conversation_count := 5;
     date_range := (py "2024-03-04T10:00:00", py "2024-03-08T10:00:00");
     main_topics := [py "python"; py "listas"];
     total_tokens := 40;
     summary_text :=
       py "Período 2024-W10: 5 conversaciones sobre temas como python, listas"
  |}.

Definition summary_state : State :=
  {| short_term_memory := []; conversation_summaries := [python_summary];
     memory_file := None; summary_file := Some [python_summary] |}.

(** ** The summary unit as it is returned *)

(** Estimated cost of a returned message: [len(content) // 4]. *)
Definition message_tokens (m : Message) : Z := _estimate_tokens (content m).

(** Estimated cost of the summary unit of a result: the cost of the system
    message that [get_intelligent_context] returns for it, prefix included. *)
Definition returned_summary_tokens {rt : PyRuntime} (texts : list str) : Z :=
  sum_Z (List.map message_tokens (flat_map summary_messages texts)).

(** Two weekly summaries of conversations about a program's own functions,
    with the text [_create_weekly_summary] writes for them. *)
Definition functions_summary_w10 : Summary :=
  {| period := py "2024-W10";
     conversation_count := 12;
     date_range := (py "2024-03-04T10:00:00", py "2024-03-08T18:00:00");
     main_topics :=
       List.map py
         ["search_relevant_conversations"; "_group_conversations_by_time";
          "get_intelligent_context"; "_calculate_relevance_score";
          "_create_conversation_summary"]%string;
     total_tokens := 480;
     summary_text :=
       py "Período 2024-W10: 12 conversaciones sobre temas como search_relevant_conversations, _group_conversations_by_time, get_intelligent_context, _calculate_relevance_score, _create_conversation_summary"
  |}.

Definition functions_summary_w11 : Summary :=
  {| period := py "2024-W11";
     conversation_count := 15;
     date_range := (py "2024-03-11T09:00:00", py "2024-03-15T17:00:00");
     main_topics :=
       List.map py
         ["get_intelligent_context"; "_get_relevant_summaries";
          "_create_weekly_summary"; "search_relevant_conversations";
          "load_from_long_term"]%string;
     total_tokens := 610;
     summary_text :=
       py "Período 2024-W11: 15 conversaciones sobre temas como get_intelligent_context, _get_relevant_summaries, _create_weekly_summary, search_relevant_conversations, load_from_long_term"
  |}.

(** A system started on these two summaries, with no log yet. *)
Definition functions_state : State :=
  {| short_term_memory := [];
     conversation_summaries := [functions_summary_w10; functions_summary_w11];
     memory_file := None;
     summary_file := Some [functions_summary_w10; functions_summary_w11] |}.

(** A long session: three older records about python, then the three
    records of the window, each a long exchange. *)
Definition python_lessons : list Interaction :=
  [ record_of "2024-03-04T10:00:00" "python listas"
      "las listas de python son mutables" 100;
    record_of "2024-03-05T10:00:00" "python dict"
      "los dict de python guardan pares" 90;
    record_of "2024-03-06T10:00:00" "python tuplas"
      "las tuplas de python no cambian" 88 ].

Definition report_window : list Interaction :=
  [ record_of "2024-03-11T09:00:00" "revisa el informe trimestral"
      "informe revisado" 1900;
    record_of "2024-03-11T09:30:00" "traduce el informe"
      "informe traducido" 1900;
    record_of "2024-03-11T10:00:00" "resume el informe"
      "informe resumido" 1900 ].

Definition long_session_state : State :=
  {| short_term_memory := report_window;
     conversation_summaries := [python_summary];
     memory_file := Some (python_lessons ++ report_window);
     summary_file := Some [python_summary] |}.

(** * Properties *)

(** ** The short-term window *)

Lemma tl_skipn {A} (k : nat) (l : list A) : tl (skipn k l) = skipn (S k) l.
Proof.
  revert l; induction k as [|k IH]; intros [|x l]; simpl; auto.
Qed.

Lemma skipn_snoc {A} (k : nat) (l : list A) (x : A) :
  (k <= length l)%nat -> skipn k l ++ [x] = skipn k (l ++ [x]).
Proof.
  intros Hk. rewrite skipn_app.
  replace (k - length l)%nat with 0%nat by lia. reflexivity.
Qed.

(** Appending then popping the head when the bound is passed keeps "the last
    [limit] of everything appended". *)
Lemma window_push {A} (limit : Z) (all w : list A) (x : A) :
  0 <= limit ->
  w = last_n (Nat.min (Z.to_nat limit) (length all)) all ->
  (if limit <? Z.of_nat (length (w ++ [x])) then tl (w ++ [x]) else w ++ [x])
  = last_n (Nat.min (Z.to_nat limit) (length (all ++ [x]))) (all ++ [x]).
Proof.
  intros Hl ->. unfold last_n.
  rewrite !length_app, length_skipn. simpl length.
  destruct (Z.ltb_spec limit
              (Z.of_nat (length all - (length all - Nat.min (Z.to_nat limit) (length all)) + 1)))
    as [Hlt|Hge].
  - assert (Hk : (length all - Nat.min (Z.to_nat limit) (length all)
                  <= length all)%nat) by lia.
    rewrite (skipn_snoc _ _ x Hk), tl_skipn. f_equal. lia.
  - replace (length all - Nat.min (Z.to_nat limit) (length all))%nat
      with 0%nat by lia.
    replace (length all + 1 - Nat.min (Z.to_nat limit) (length all + 1))%nat
      with 0%nat by lia.
    reflexivity.
Qed.

Section WindowProofs.
Context {rt : PyRuntime}.

Lemma short_term_create_summary st history :
  short_term_memory (_create_conversation_summary st history)
  = short_term_memory st.
Proof.
  unfold _create_conversation_summary.
  destruct (_ <? _)%nat; [reflexivity|].
  destruct (_group_conversations_by_time _); reflexivity.
Qed.

Lemma short_term_check st :
  short_term_memory (_check_and_summarize st) = short_term_memory st.
Proof.
  unfold _check_and_summarize.
  destruct (memory_file st); [|reflexivity].
  destruct (_ <=? _); [apply short_term_create_summary|reflexivity].
Qed.

Lemma short_term_add st now u a m :
  short_term_memory (add_interaction st now u a m)
  = let window := short_term_memory st ++ [new_interaction now u a m] in
    if SHORT_TERM_MEMORY_LIMIT <? Z.of_nat (length window)
    then tl window else window.
Proof. unfold add_interaction. rewrite short_term_check. reflexivity. Qed.

Lemma run_calls_snoc st calls c :
  run_calls st (calls ++ [c])
  = add_interaction (run_calls st calls) (call_now c) (call_user c)
      (call_assistant c) (call_metadata c).
Proof. unfold run_calls. now rewrite fold_left_app. Qed.

Lemma window_after_calls st calls :
  short_term_memory st = [] ->
  short_term_memory (run_calls st calls)
  = last_n (Nat.min (Z.to_nat SHORT_TERM_MEMORY_LIMIT) (length calls))
      (List.map interaction_of calls).
Proof.
  intros H0. induction calls as [|c calls IH] using rev_ind.
  - exact H0.
  - rewrite run_calls_snoc, short_term_add, map_app. cbv zeta.
    etransitivity.
    { apply (window_push SHORT_TERM_MEMORY_LIMIT
               (List.map interaction_of calls) _ (interaction_of c)).
      - unfold SHORT_TERM_MEMORY_LIMIT; lia.
      - rewrite length_map. exact IH. }
    rewrite !length_app, !length_map. reflexivity.
Qed.

(** C1. Starting from an empty short-term window, after any sequence of
    [add_interaction] calls the window holds at most
    [SHORT_TERM_MEMORY_LIMIT] records, and they are exactly the most recent
    [min(limit, number of calls)] interactions in the order they were
    appended. *)
Theorem C1_window_is_recent_suffix
    (summaries : list Summary) (mfile : option (list Interaction))
    (sfile : option (list Summary)) (calls : list Call) :
  let st0 := {| short_term_memory := [];
                conversation_summaries := summaries;
                memory_file := mfile; summary_file := sfile |} in
  let w := short_term_memory (run_calls st0 calls) in
  Z.of_nat (length w) <= SHORT_TERM_MEMORY_LIMIT
  /\ w = last_n (Nat.min (Z.to_nat SHORT_TERM_MEMORY_LIMIT) (length calls))
           (List.map interaction_of calls)
  /\ length w = Nat.min (Z.to_nat SHORT_TERM_MEMORY_LIMIT) (length calls).
Proof.
  intros st0 w.
  assert (Hw : w = last_n (Nat.min (Z.to_nat SHORT_TERM_MEMORY_LIMIT)
                             (length calls))
                     (List.map interaction_of calls))
    by (apply window_after_calls; reflexivity).
  assert (Hlen : length w
                 = Nat.min (Z.to_nat SHORT_TERM_MEMORY_LIMIT) (length calls)).
  { rewrite Hw. unfold last_n. rewrite length_skipn, length_map. lia. }
  repeat split; auto. rewrite Hlen. unfold SHORT_TERM_MEMORY_LIMIT. lia.
Qed.

End WindowProofs.

(** ** Stable descending sort *)

Section SortProps.
Context {A : Type} (ge : A -> A -> bool).

Lemma insert_desc_perm x l : Permutation (insert_desc ge x l) (x :: l).
Proof.
  induction l as [|y l IH]; simpl; [apply Permutation_refl|].
  destruct (ge x y); [apply Permutation_refl|].
  eapply perm_trans; [apply perm_skip, IH | apply perm_swap].
Qed.

Lemma sort_desc_perm l : Permutation (sort_desc ge l) l.
Proof.
  induction l as [|x l IH]; simpl; [constructor|].
  eapply perm_trans; [apply insert_desc_perm | now apply perm_skip].
Qed.

(** Stability: inside a class of elements that compare as equal, insertion
    and sorting keep the order. *)
Lemma insert_desc_filter (p : A -> bool) x l :
  (forall y, p x = true -> p y = true -> ge x y = true) ->
  List.filter p (insert_desc ge x l) = List.filter p (x :: l).
Proof.
  intros Hp. induction l as [|y l IH]; [reflexivity|].
  simpl insert_desc. destruct (ge x y) eqn:Hxy; [reflexivity|].
  simpl in *. rewrite IH.
  destruct (p x) eqn:Hx, (p y) eqn:Hy; try reflexivity.
  rewrite (Hp y eq_refl Hy) in Hxy. discriminate.
Qed.

Lemma sort_desc_filter (p : A -> bool) l :
  (forall x y, p x = true -> p y = true -> ge x y = true) ->
  List.filter p (sort_desc ge l) = List.filter p l.
Proof.
  intros Hp. induction l as [|x l IH]; [reflexivity|].
  simpl sort_desc. rewrite insert_desc_filter by (intros; now apply Hp).
  simpl. now rewrite IH.
Qed.

Section Sorted.
Hypothesis ge_total : forall x y, ge x y = false -> ge y x = true.
Hypothesis ge_trans :
  forall x y z, ge x y = true -> ge y z = true -> ge x z = true.

Lemma insert_desc_sorted x l :
  StronglySorted (fun a b => ge a b = true) l ->
StronglySorted (fun a b => ge a b = true) (insert_desc ge x l).
Proof.
  induction 1 as [|y l Hs IH Hy]; simpl.
  - repeat constructor.
  - destruct (ge x y) eqn:Hxy.
    + constructor; [now constructor|].
      constructor; [exact Hxy|].
      eapply Forall_impl; [|exact Hy].
      intros z Hz. exact (ge_trans _ _ _ Hxy Hz).
    + constructor; [exact IH|].
      eapply Permutation_Forall;
        [apply Permutation_sym, insert_desc_perm|].
      constructor; [now apply ge_total | exact Hy].
Qed.

Lemma sort_desc_sorted l :
StronglySorted (fun a b => ge a b = true) (sort_desc ge l).
Proof.
  induction l as [|x l IH]; simpl; [constructor|].
  now apply insert_desc_sorted.
Qed.
End Sorted.

End SortProps.

Lemma StronglySorted_weaken {A} (R R' : A -> A -> Prop) l :
  (forall a b, R a b -> R' a b) -> StronglySorted R l -> StronglySorted R' l.
Proof.
  intros HR. induction 1 as [|x l Hs IH Hx]; constructor; auto.
  eapply Forall_impl; [|exact Hx]. intros; now apply HR.
Qed.

Lemma StronglySorted_firstn {A} (R : A -> A -> Prop) n l :
  StronglySorted R l -> StronglySorted R (firstn n l).
Proof.
  intros H; revert n; induction H as [|x l Hs IH Hx]; intros [|n]; simpl;
    try constructor; auto.
  rewrite Forall_forall in *. intros y Hy. apply Hx.
  rewrite <- (firstn_skipn n l). apply in_or_app. now left.
Qed.

Lemma filter_firstn_prefix {A} (p : A -> bool) n l :
  List.filter p l = List.filter p (firstn n l) ++ List.filter p (skipn n l).
Proof. now rewrite <- filter_app, firstn_skipn. Qed.

Lemma slice_to_nonneg {A} (l : list A) (n : Z) :
  0 <= n -> slice_to l n = firstn (Z.to_nat n) l.
Proof. intros H. unfold slice_to. destruct (Z.ltb_spec n 0); [lia|reflexivity]. Qed.

Lemma Qgtb_lt (a b : Q) : Qgtb a b = true <-> (b < a)%Q.
Proof.
  unfold Qgtb. rewrite negb_true_iff. split.
  - intros H. apply Qnot_le_lt. intros Hle.
    apply Qle_bool_iff in Hle. congruence.
  - intros H. destruct (Qle_bool a b) eqn:E; [|reflexivity].
    apply Qle_bool_iff in E. exfalso. exact (Qlt_not_le _ _ H E).
Qed.

Lemma by_relevance_total x y :
  by_relevance x y = false -> by_relevance y x = true.
Proof.
  unfold by_relevance. intros H. apply Qle_bool_iff.
  apply Qlt_le_weak, Qnot_le_lt. intros Hle.
  apply Qle_bool_iff in Hle. congruence.
Qed.

Lemma by_relevance_trans x y z :
  by_relevance x y = true -> by_relevance y z = true ->
  by_relevance x z = true.
Proof.
  unfold by_relevance. rewrite !Qle_bool_iff. intros H1 H2.
  eapply Qle_trans; eauto.
Qed.

Lemma has_score_by_relevance q x y :
  has_score q x = true -> has_score q y = true -> by_relevance x y = true.
Proof.
  unfold has_score, by_relevance.
  rewrite !Qeq_bool_iff, Qle_bool_iff. intros -> ->. apply Qle_refl.
Qed.

(** ** Relevance search *)

Section SearchProofs.
Context {rt : PyRuntime}.

Lemma score_conversations_acc query_terms history acc :
  fold_left
    (fun scored conv =>
       let score := _calculate_relevance_score query_terms (conv_text conv) in
       if Qgtb score 0 then scored ++ [set_relevance_score conv score]
       else scored)
    history acc
  = acc
    ++ List.map
         (fun c =>
            set_relevance_score c
              (_calculate_relevance_score query_terms (conv_text c)))
         (List.filter
            (fun c =>
               Qgtb (_calculate_relevance_score query_terms (conv_text c)) 0)
            history).
Proof.
  revert acc; induction history as [|c h IH]; intros acc; simpl.
  - now rewrite app_nil_r.
  - rewrite IH. destruct (Qgtb _ 0); simpl; [|reflexivity].
    now rewrite <- app_assoc.
Qed.

Lemma score_conversations_spec query history :
  score_conversations (_extract_terms (lower query)) history
  = positive_in_corpus_order query history.
Proof. unfold score_conversations. now rewrite score_conversations_acc. Qed.

Lemma positive_in_corpus_order_pos query history :
  Forall (fun r => 0 < relevance_score r)%Q
    (positive_in_corpus_order query history).
Proof.
  unfold positive_in_corpus_order. rewrite Forall_map, Forall_forall.
  intros c Hc. apply filter_In in Hc as [_ Hc]. simpl.
  now apply Qgtb_lt.
Qed.

(** The search is a prefix of the stably sorted positive records. *)
Lemma search_unfold memory_file query limit :
  search_relevant_conversations memory_file query limit
  = slice_to
      (sort_desc by_relevance
         (positive_in_corpus_order query (read_json memory_file)))
      (effective_limit limit).
Proof.
  unfold search_relevant_conversations, effective_limit, read_json.
  destruct memory_file as [[|c h]|].
  - unfold slice_to. simpl. now destruct (_ <? 0); rewrite firstn_nil.
  - now rewrite score_conversations_spec.
  - unfold slice_to. simpl. now destruct (_ <? 0); rewrite firstn_nil.
Qed.

Lemma In_firstn {A} n (l : list A) x : In x (firstn n l) -> In x l.
Proof.
  intros H. rewrite <- (firstn_skipn n l). apply in_or_app. now left.
Qed.

Lemma slice_to_incl {A} (l : list A) n x : In x (slice_to l n) -> In x l.
Proof. unfold slice_to. destruct (n <? 0); apply In_firstn. Qed.

Lemma search_results_in_corpus memory_file query limit r :
  In r (search_relevant_conversations memory_file query limit) ->
  In r (positive_in_corpus_order query (read_json memory_file)).
Proof.
  rewrite search_unfold. intros H%slice_to_incl.
  eapply Permutation_in; [apply sort_desc_perm | exact H].
Qed.

(** C4 (amended). For a limit that is not negative (or the default), the
    search returns at most [limit] records; every returned record is a
    corpus record carrying its strictly positive score; the result is
    sorted by non-increasing score; and for every score value, the
    returned records with that score are, in order, the first ones of the
    corpus records with that score. *)
Theorem C4_search_sorted_stable_bounded
    (memory_file : option (list Interaction)) (query : str)
    (limit : option Z) :
  0 <= effective_limit limit ->
  let res := search_relevant_conversations memory_file query limit in
  let positive := positive_in_corpus_order query (read_json memory_file) in
  Z.of_nat (length res) <= effective_limit limit
  /\ (forall r, In r res -> In r positive)
  /\ Forall (fun r => 0 < relevance_score r)%Q res
  /\ StronglySorted score_desc res
  /\ (forall q, exists later,
        List.filter (has_score q) positive
        = List.filter (has_score q) res ++ later).
Proof.
  intros Hlim res positive.
  assert (Hres : res = firstn (Z.to_nat (effective_limit limit))
                         (sort_desc by_relevance positive)).
  { unfold res. rewrite search_unfold. now apply slice_to_nonneg. }
  assert (Hin : forall r, In r res -> In r positive).
  { intros r. apply search_results_in_corpus. }
  repeat split.
  - rewrite Hres, length_firstn. lia.
  - exact Hin.
  - rewrite Forall_forall. intros r Hr%Hin.
    pose proof (positive_in_corpus_order_pos query (read_json memory_file))
      as Hpos.
    rewrite Forall_forall in Hpos. now apply Hpos.
  - rewrite Hres. apply StronglySorted_firstn.
    eapply StronglySorted_weaken;
      [|apply (sort_desc_sorted by_relevance by_relevance_total
                 by_relevance_trans)].
    intros a b Hab. now apply Qle_bool_iff.
  - intros q. eexists.
    rewrite <- (sort_desc_filter by_relevance (has_score q) positive)
      by apply has_score_by_relevance.
    rewrite Hres. apply filter_firstn_prefix.
Qed.

End SearchProofs.

(** ** Context composition *)

Section ComposerProofs.
Context {rt : PyRuntime}.

Lemma tokens_of_app l1 l2 : tokens_of (l1 ++ l2) = tokens_of l1 + tokens_of l2.
Proof.
  unfold tokens_of. induction l1 as [|x l1 IH]; simpl; [reflexivity|].
  rewrite IH. lia.
Qed.

(** The recency loop includes a run [taken] of the newest records, emits
    them oldest first in front of what was there, and never passes the
    budget. *)
Lemma recency_loop_spec max_tokens newest_first ctx :
  exists taken rest,
    newest_first = taken ++ rest
    /\ context_messages (recency_loop max_tokens newest_first ctx)
       = flat_map recent_messages (rev taken) ++ context_messages ctx
    /\ context_sources (recency_loop max_tokens newest_first ctx)
       = repeat recent (length taken) ++ context_sources ctx
    /\ current_tokens (recency_loop max_tokens newest_first ctx)
       = current_tokens ctx + tokens_of taken
    /\ (current_tokens ctx <= max_tokens ->
        current_tokens (recency_loop max_tokens newest_first ctx)
        <= max_tokens).
Proof.
  revert ctx. induction newest_first as [|i older IH]; intros ctx.
  - exists [], []. simpl. unfold tokens_of; simpl.
    repeat split; auto; lia.
  - simpl. destruct (Z.ltb_spec max_tokens (current_tokens ctx + stored_tokens i))
      as [Hover|Hfit].
    + exists [], (i :: older). unfold tokens_of; simpl.
      repeat split; auto; lia.
    + match goal with |- context [recency_loop _ _ ?c] =>
        destruct (IH c) as (taken & rest & -> & Hm & Hs & Ht & Hb)
      end.
      exists (i :: taken), rest. simpl in *.
      rewrite Hm, Hs, Ht. repeat split.
      * rewrite flat_map_app. simpl. now rewrite <- app_assoc.
      * change (recent :: context_sources ctx)
          with ([recent] ++ context_sources ctx).
        now rewrite app_assoc, <- repeat_cons.
      * unfold tokens_of; simpl. lia.
      * intros _. rewrite <- Ht. apply Hb. exact Hfit.
Qed.

Lemma relevance_step_cases max_tokens window ctx c :
  relevance_step max_tokens window ctx c = ctx
  \/ (List.existsb (same_timestamp c) window = false
      /\ current_tokens ctx + stored_tokens c <= max_tokens
      /\ relevance_step max_tokens window ctx c
         = {| context_messages :=
                context_messages ctx ++ relevant_messages c;
              context_sources :=
                context_sources ctx ++ [relevant (relevance_score c)];
              current_tokens := current_tokens ctx + stored_tokens c |}).
Proof.
  unfold relevance_step.
  destruct (List.existsb (same_timestamp c) window); simpl; [now left|].
  destruct (Z.leb_spec (current_tokens ctx + stored_tokens c) max_tokens);
    [right; auto | now left].
Qed.

(** The relevance loop appends a subsequence of the search results and
    never passes the budget. *)
Lemma relevance_loop_spec max_tokens window convs ctx :
  exists taken,
    sublist taken convs
    /\ Forall (fun c => List.existsb (same_timestamp c) window = false) taken
    /\ context_messages
         (fold_left (relevance_step max_tokens window) convs ctx)
       = context_messages ctx ++ flat_map relevant_messages taken
    /\ context_sources
         (fold_left (relevance_step max_tokens window) convs ctx)
       = context_sources ctx
         ++ List.map (fun c => relevant (relevance_score c)) taken
    /\ current_tokens
         (fold_left (relevance_step max_tokens window) convs ctx)
       = current_tokens ctx + tokens_of taken
    /\ (current_tokens ctx <= max_tokens ->
        current_tokens
          (fold_left (relevance_step max_tokens window) convs ctx)
        <= max_tokens).
Proof.
  revert ctx. induction convs as [|c convs IH]; intros ctx.
  - exists []. simpl. unfold tokens_of; simpl.
    rewrite !app_nil_r. repeat split; auto; try lia; try constructor.
  - simpl.
    destruct (relevance_step_cases max_tokens window ctx c)
      as [E | (Hdup & Hfit & E)]; rewrite E.
    + destruct (IH ctx) as (taken & Hsub & Hnd & Hm & Hs & Ht & Hb).
      exists taken. repeat split; auto. now apply sublist_cons.
    + match goal with |- context [fold_left _ _ ?c'] =>
        destruct (IH c') as (taken & Hsub & Hnd & Hm & Hs & Ht & Hb)
      end.
      exists (c :: taken). simpl in *. rewrite Hm, Hs, Ht.
      repeat split.
      * now apply sublist_skip.
      * now constructor.
      * now rewrite <- app_assoc.
      * now rewrite <- app_assoc.
      * unfold tokens_of; simpl. lia.
      * intros _. rewrite <- Ht. apply Hb. exact Hfit.
Qed.

Lemma tokens_of_rev l : tokens_of (rev l) = tokens_of l.
Proof.
  induction l as [|x l IH]; [reflexivity|]. simpl rev.
  rewrite tokens_of_app, IH. unfold tokens_of; simpl. lia.
Qed.

(** Shape of the result: the summary message when there is one, then a
    suffix of the window in chronological order, then a subsequence of the
    search results in the order the search returned them; the costs of what
    is included add up to at most a non-negative budget. *)
Lemma context_structure st current_message max_tokens :
  exists older recents relevants summaries,
    short_term_memory st = older ++ recents
    /\ sublist relevants
         (search_relevant_conversations (memory_file st) current_message
            (Some 3))
    /\ Forall
         (fun c =>
            List.existsb (same_timestamp c) (short_term_memory st) = false)
         relevants
    /\ (summaries = []
        \/ summaries
           = [_get_relevant_summaries (conversation_summaries st)
                current_message])
    /\ get_intelligent_context st current_message max_tokens
       = (flat_map summary_messages summaries
          ++ flat_map recent_messages recents
          ++ flat_map relevant_messages relevants,
          List.map (fun _ => summary) summaries
          ++ repeat recent (length recents)
          ++ List.map (fun c => relevant (relevance_score c)) relevants)
    /\ (0 <= effective_budget max_tokens ->
        summary_tokens_of summaries + tokens_of recents + tokens_of relevants
        <= effective_budget max_tokens).
Proof.
  unfold get_intelligent_context. cbv zeta.
  change (match max_tokens with
          | Some n => n | None => MAX_CONTEXT_TOKENS end)
    with (effective_budget max_tokens).
  set (B := effective_budget max_tokens).
  destruct (recency_loop_spec B (rev (short_term_memory st))
              {| context_messages := []; context_sources := [];
                 current_tokens := 0 |})
    as (taken & rest & Hw & Hm1 & Hs1 & Ht1 & Hb1).
  set (ctx1 := recency_loop B _ _) in *. simpl in Hm1, Hs1, Ht1, Hb1.
  rewrite app_nil_r in Hm1, Hs1.
  assert (Hwin : short_term_memory st = rev rest ++ rev taken).
  { rewrite <- rev_app_distr, <- Hw. now rewrite rev_involutive. }
  set (ctx2 := if 200 <? B - current_tokens ctx1 then _ else ctx1).
  assert (H2 : exists relevants,
             sublist relevants
               (search_relevant_conversations (memory_file st)
                  current_message (Some 3))
             /\ Forall
                  (fun c =>
                     List.existsb (same_timestamp c) (short_term_memory st)
                     = false) relevants
             /\ context_messages ctx2
                = context_messages ctx1 ++ flat_map relevant_messages relevants
             /\ context_sources ctx2
                = context_sources ctx1
                  ++ List.map (fun c => relevant (relevance_score c)) relevants
             /\ current_tokens ctx2 = current_tokens ctx1 + tokens_of relevants
             /\ (current_tokens ctx1 <= B -> current_tokens ctx2 <= B)).
  { unfold ctx2. destruct (200 <? B - current_tokens ctx1).
    - apply relevance_loop_spec.
    - exists []. unfold tokens_of; simpl. rewrite !app_nil_r.
      repeat split; auto; try lia. apply sublist_nil_l. }
  destruct H2 as (relevants & Hsub & Hnd & Hm2 & Hs2 & Ht2 & Hb2).
  assert (Hcost : 0 <= B ->
                  tokens_of (rev taken) + tokens_of relevants <= B
                  /\ current_tokens ctx2
                     = tokens_of (rev taken) + tokens_of relevants).
  { intros HB. rewrite tokens_of_rev. split; [|lia].
    pose proof (Hb2 (Hb1 HB)). lia. }
  assert (Hplain :
            (context_messages ctx2, context_sources ctx2)
            = (flat_map summary_messages []
               ++ flat_map recent_messages (rev taken)
               ++ flat_map relevant_messages relevants,
               List.map (fun _ => summary) (@nil str)
               ++ repeat recent (length (rev taken))
               ++ List.map (fun c => relevant (relevance_score c)) relevants)).
  { simpl. now rewrite Hm2, Hs2, Hm1, Hs1, length_rev. }
  assert (Hnone : 0 <= B ->
                  summary_tokens_of [] + tokens_of (rev taken)
                  + tokens_of relevants <= B).
  { intros HB. unfold summary_tokens_of; simpl. apply Hcost in HB. lia. }
  exists (rev rest), (rev taken), relevants.
  destruct (conversation_summaries st) as [|s0 ss] eqn:Hsum.
  { exists []. repeat split; auto. }
  destruct (100 <? B - current_tokens ctx1);
    [|exists []; repeat split; auto].
  destruct (_get_relevant_summaries (s0 :: ss) current_message)
    as [|ch text] eqn:Htext;
    [exists []; repeat split; auto|].
  destruct (Z.leb_spec
              (current_tokens ctx2 + _estimate_tokens (ch :: text)) B)
    as [Hfit|Hover];
    [|exists []; repeat split; auto].
  exists [ch :: text]. repeat split; auto.
  - simpl. now rewrite Hm2, Hs2, Hm1, Hs1, length_rev.
  - intros HB. apply Hcost in HB as [_ HB].
    unfold summary_tokens_of; simpl. lia.
Qed.

End ComposerProofs.

Section BudgetProofs.
Context {rt : PyRuntime}.

(** The budget bounds what the composer counts.  For a non-negative budget,
    what [get_intelligent_context] returns is made of a suffix of the window,
    a subsequence of the search results and at most one summary text, with
    one provenance tag for each, and the costs the source checks (stored
    [tokens_used], or [len(text) // 4] when absent; for the summary,
    [len(summary_text) // 4], the text without the prefix of the returned
    message) add up to at most the budget. *)
Lemma context_counted_cost_within_budget
    (st : State) (current_message : str) (max_tokens : option Z) :
  0 <= effective_budget max_tokens ->
  exists older recents relevants summaries,
    short_term_memory st = older ++ recents
    /\ sublist relevants
         (search_relevant_conversations (memory_file st) current_message
            (Some 3))
    /\ (summaries = []
        \/ summaries
           = [_get_relevant_summaries (conversation_summaries st)
                current_message])
    /\ get_intelligent_context st current_message max_tokens
       = (flat_map summary_messages summaries
          ++ flat_map recent_messages recents
          ++ flat_map relevant_messages relevants,
          List.map (fun _ => summary) summaries
          ++ repeat recent (length recents)
          ++ List.map (fun c => relevant (relevance_score c)) relevants)
    /\ summary_tokens_of summaries + tokens_of recents + tokens_of relevants
       <= effective_budget max_tokens.
Proof.
  intros HB.
  destruct (context_structure st current_message max_tokens)
    as (older & recents & relevants & summaries
        & Hw & Hsub & _ & Hsum & Hres & Hcost).
  exists older, recents, relevants, summaries.
  repeat split; auto.
Qed.

(** The returned summary message is longer than the text the source checks
    by the 38 characters of its prefix, which is at most 10 units more. *)
Lemma returned_summary_tokens_bound (text : str) :
  summary_tokens_of [text] + 9 <= returned_summary_tokens [text]
  /\ returned_summary_tokens [text] <= summary_tokens_of [text] + 10.
Proof.
  unfold returned_summary_tokens, summary_tokens_of, summary_messages.
  cbn [flat_map List.map app sum_Z fold_right].
  unfold message_tokens, _estimate_tokens. cbn [content].
  rewrite !Z.add_0_r, length_app, Nat2Z.inj_add.
  change (Z.of_nat (length summary_prefix)) with 38.
  set (n := Z.of_nat (length text)).
  pose proof (Z.div_mod n 4 ltac:(lia)).
  pose proof (Z.mod_pos_bound n 4 ltac:(lia)).
  pose proof (Z.div_mod (38 + n) 4 ltac:(lia)).
  pose proof (Z.mod_pos_bound (38 + n) 4 ltac:(lia)).
  lia.
Qed.

(** What the budget bounds of the returned units: their costs, the summary
    message counted as it is returned, add up to at most the budget plus
    10. *)
Lemma context_returned_cost_overshoot
    (st : State) (current_message : str) (max_tokens : option Z) :
  0 <= effective_budget max_tokens ->
  exists older recents relevants summaries,
    short_term_memory st = older ++ recents
    /\ get_intelligent_context st current_message max_tokens
       = (flat_map summary_messages summaries
          ++ flat_map recent_messages recents
          ++ flat_map relevant_messages relevants,
          List.map (fun _ => summary) summaries
          ++ repeat recent (length recents)
          ++ List.map (fun c => relevant (relevance_score c)) relevants)
    /\ returned_summary_tokens summaries + tokens_of recents
       + tokens_of relevants
       <= effective_budget max_tokens + 10.
Proof.
  intros HB.
  destruct (context_structure st current_message max_tokens)
    as (older & recents & relevants & summaries
        & Hw & _ & _ & Hsum & Hres & Hcost).
  exists older, recents, relevants, summaries.
  split; [exact Hw|]. split; [exact Hres|].
  specialize (Hcost HB).
  destruct Hsum as [-> | ->].
  - unfold returned_summary_tokens, summary_tokens_of in *; simpl in *. lia.
  - pose proof (returned_summary_tokens_bound
                  (_get_relevant_summaries (conversation_summaries st)
                     current_message)) as [_ Hb].
    lia.
Qed.

(** C7 (amended). With budget 0 the result is empty when the window is
    empty or its most recent interaction has a strictly positive estimated
    token cost. *)
Theorem C7_zero_budget_empty (st : State) (current_message : str) :
  (forall newest,
      hd_error (rev (short_term_memory st)) = Some newest ->
      0 < stored_tokens newest) ->
  get_intelligent_context st current_message (Some 0) = ([], []).
Proof.
  intros Hnewest. unfold get_intelligent_context. cbv zeta.
  assert (Hloop :
            recency_loop 0 (rev (short_term_memory st))
              {| context_messages := []; context_sources := [];
                 current_tokens := 0 |}
            = {| context_messages := []; context_sources := [];
                 current_tokens := 0 |}).
  { destruct (rev (short_term_memory st)) as [|newest older];
      [reflexivity|].
    simpl. specialize (Hnewest newest eq_refl).
    destruct (Z.ltb_spec 0 (0 + stored_tokens newest)); [reflexivity|lia]. }
  rewrite Hloop. simpl.
  destruct (conversation_summaries st); reflexivity.
Qed.

End BudgetProofs.

(** ** Term extraction *)

Lemma filter_idempotent {A} (f : A -> bool) (l : list A) :
  List.filter f (List.filter f l) = List.filter f l.
Proof.
  induction l as [|x l IH]; simpl; [reflexivity|].
  destruct (f x) eqn:E; simpl; [rewrite E|]; now rewrite IH.
Qed.

Lemma filter_filter_and {A} (f g : A -> bool) (l : list A) :
  List.filter g (List.filter f l) = List.filter (fun x => f x && g x) l.
Proof.
  induction l as [|x l IH]; simpl; [reflexivity|].
  destruct (f x); simpl; [destruct (g x)|]; now rewrite IH.
Qed.

Section TermProofs.
Context {rt : PyRuntime}.

Lemma split_from_terms cur text :
  Forall nonspace cur -> Forall is_term (split_from cur text).
Proof.
  revert cur; induction text as [|c text IH]; intros cur Hcur; simpl.
  - destruct cur as [|x cur]; [constructor|].
    constructor; [|constructor]. split.
    + intros E. apply (f_equal (@length _)) in E.
      rewrite length_rev in E. discriminate.
    + apply Forall_rev. exact Hcur.
  - destruct (isspace c) eqn:Hc.
    + destruct cur as [|x cur]; [apply IH; constructor|].
      constructor; [|apply IH; constructor]. split.
      * intros E. apply (f_equal (@length _)) in E.
        rewrite length_rev in E. discriminate.
      * apply Forall_rev. exact Hcur.
    + apply IH. constructor; assumption.
Qed.

(** The characters of the terms are characters of the text. *)
Lemma split_from_chars (P : char -> Prop) cur text :
  Forall P cur -> Forall P text -> Forall (Forall P) (split_from cur text).
Proof.
  revert cur; induction text as [|c text IH]; intros cur Hcur Htext; simpl.
  - destruct cur; [constructor|].
    constructor; [now apply Forall_rev | constructor].
  - inversion Htext as [|? ? Hc Ht]; subst.
    destruct (isspace c).
    + destruct cur; [now apply IH|].
      constructor; [now apply Forall_rev | now apply IH].
    + apply IH; [now constructor | assumption].
Qed.

Lemma split_from_run t cur rest :
  Forall nonspace t ->
  split_from cur (t ++ rest) = split_from (rev t ++ cur) rest.
Proof.
  revert cur; induction t as [|c t IH]; intros cur Ht; [reflexivity|].
  inversion Ht as [|? ? Hc Ht']; subst. simpl.
  unfold nonspace in Hc. rewrite Hc, IH by assumption.
  now rewrite <- app_assoc.
Qed.

Lemma split_from_end cur : cur <> [] -> split_from cur [] = [rev cur].
Proof. destruct cur; [congruence | reflexivity]. Qed.

Lemma split_from_space cur c rest :
  isspace c = true -> cur <> [] ->
  split_from cur (c :: rest) = rev cur :: split_from [] rest.
Proof. intros Hc Hcur. simpl. rewrite Hc. destruct cur; [congruence | reflexivity]. Qed.

Lemma rev_not_nil {A} (l : list A) : l <> [] -> rev l <> [].
Proof.
  intros Hl E. apply (f_equal (@length _)) in E.
  rewrite length_rev in E. destruct l; [congruence | discriminate].
Qed.

(** Splitting what was joined with single spaces gives the terms back. *)
Lemma split_join ts :
  isspace SP = true -> Forall is_term ts -> split (join [SP] ts) = ts.
Proof.
  intros Hsp. unfold split. induction 1 as [|t ts [Hne Ht] Hts IH];
    [reflexivity|].
  destruct ts as [|t' ts'].
  - simpl join. rewrite <- (app_nil_r t) at 1.
    rewrite split_from_run by assumption. rewrite app_nil_r.
    rewrite split_from_end by now apply rev_not_nil.
    now rewrite rev_involutive.
  - change (join [SP] (t :: t' :: ts'))
      with (t ++ SP :: join [SP] (t' :: ts')).
    rewrite split_from_run by assumption. rewrite app_nil_r.
    rewrite split_from_space by (auto using rev_not_nil).
    now rewrite rev_involutive, IH.
Qed.

Lemma re_sub_chars text :
  isspace SP = true -> Forall kept_char (re_sub_nonword text).
Proof.
  intros Hsp. unfold re_sub_nonword. rewrite Forall_map, Forall_forall.
  intros c _. unfold kept_char.
  destruct (is_word c || isspace c) eqn:E; [exact E|].
  rewrite Hsp. apply orb_true_r.
Qed.

Lemma re_sub_fixed text :
  Forall kept_char text -> re_sub_nonword text = text.
Proof.
  unfold re_sub_nonword, kept_char.
  induction 1 as [|c text Hc _ IH]; simpl; [reflexivity|].
  now rewrite Hc, IH.
Qed.

Lemma join_chars (P : char -> Prop) ts :
  P SP -> Forall (Forall P) ts -> Forall P (join [SP] ts).
Proof.
  intros Hsp. induction 1 as [|t ts Ht Hts IH]; [constructor|].
  destruct ts as [|t' ts']; [exact Ht|].
  change (join [SP] (t :: t' :: ts'))
    with (t ++ SP :: join [SP] (t' :: ts')).
  apply Forall_app. split; [exact Ht|]. now constructor.
Qed.

Lemma Forall_filter_keep {A} (P : A -> Prop) (f : A -> bool) l :
  Forall P l -> Forall P (List.filter f l).
Proof.
  rewrite !Forall_forall. intros H x Hx. apply H.
  now apply filter_In in Hx.
Qed.

(** C8. Re-extracting from the extracted terms joined with single spaces
    gives the same sequence of terms, and no extracted term is a stop word
    or has length at most 2.  The space is whitespace for every Python
    runtime; this is the only fact about the runtime that is used. *)
Theorem C8_extract_terms_idempotent (text : str) :
  isspace SP = true ->
  _extract_terms (join [SP] (_extract_terms text)) = _extract_terms text
  /\ Forall
       (fun t => str_in t stop_words = false /\ (2 < length t)%nat)
       (_extract_terms text).
Proof.
  intros Hsp. split.
  - unfold _extract_terms at 1. cbv zeta.
    assert (Hterms : Forall is_term (_extract_terms text)).
    { apply Forall_filter_keep, split_from_terms. constructor. }
    assert (Hchars : Forall (Forall kept_char) (_extract_terms text)).
    { apply Forall_filter_keep, split_from_chars;
        [constructor | now apply re_sub_chars]. }
    rewrite re_sub_fixed.
    + rewrite split_join by assumption.
      unfold _extract_terms. apply filter_idempotent.
    + apply join_chars; [|exact Hchars].
      unfold kept_char. rewrite Hsp. apply orb_true_r.
  - unfold _extract_terms. rewrite Forall_forall. intros t Ht.
    apply filter_In in Ht as [_ Ht].
    apply andb_true_iff in Ht as [Hlen Hstop].
    split; [now apply negb_true_iff | now apply Nat.ltb_lt].
Qed.

(** C5 (amended). On a lowercased text without underscore, which is what
    the callers pass when their text has none, [_extract_terms] is the
    pipeline of the specification.  [_extract_terms] does not lowercase
    its argument, and [\w] keeps the underscore. *)
Theorem C5_extract_terms_refines_reference (text : str) :
  ~ In UNDERSCORE (lower text) ->
  _extract_terms (lower text) = extract_terms_reference text.
Proof.
  intros Hno. unfold _extract_terms, extract_terms_reference. cbv zeta.
  rewrite filter_filter_and.
  assert (Hclean :
            re_sub_nonword (lower text)
            = List.map (fun c => if isalnum c || isspace c then c else SP)
                (lower text)).
  { unfold re_sub_nonword. apply map_ext_in. intros c Hc.
    unfold is_word. destruct (N.eqb_spec c UNDERSCORE) as [->|_].
    - contradiction.
    - now rewrite orb_false_r. }
  rewrite Hclean. apply filter_ext. intros t. f_equal.
  rewrite Nat.leb_antisym. now rewrite negb_involutive.
Qed.

End TermProofs.

(** ** Weekly summaries *)

Lemma str_eqb_eq (a b : str) : str_eqb a b = true <-> a = b.
Proof.
  revert b; induction a as [|x a IH]; intros [|y b]; simpl;
    try (split; [discriminate | discriminate]); [tauto|].
  rewrite andb_true_iff, N.eqb_eq, IH. split.
  - now intros [-> ->].
  - intros [= -> ->]. auto.
Qed.

Lemma str_eqb_neq (a b : str) : str_eqb a b = false <-> a <> b.
Proof.
  rewrite <- str_eqb_eq. destruct (str_eqb a b); split; congruence.
Qed.

Lemma group_append_bucket k k' conv groups :
  bucket k (group_append k' conv groups)
  = if str_eqb k' k then bucket k groups ++ [conv] else bucket k groups.
Proof.
  induction groups as [|[k0 convs] groups IH]; simpl.
  - now destruct (str_eqb k' k).
  - destruct (str_eqb k0 k') eqn:E0; simpl.
    + apply str_eqb_eq in E0 as ->. destruct (str_eqb k' k); reflexivity.
    + rewrite IH. destruct (str_eqb k0 k) eqn:E1; [|reflexivity].
      apply str_eqb_eq in E1 as ->. apply str_eqb_neq in E0.
      destruct (str_eqb k' k) eqn:E2; [|reflexivity].
      apply str_eqb_eq in E2. congruence.
Qed.

Section SummaryProofs.
Context {rt : PyRuntime}.

(** A bucket holds, in log order, the records whose timestamp parses and
    gives its key. *)
Lemma group_by_week_bucket_acc k conversations groups :
  bucket k
    (fold_left
       (fun weekly_groups conv =>
          match fromisoformat (timestamp conv) with
          | Some date => group_append (week_key date) conv weekly_groups
          | None => weekly_groups
          end)
       conversations groups)
  = bucket k groups ++ List.filter (has_week_key k) conversations.
Proof.
  revert groups; induction conversations as [|c cs IH]; intros groups; simpl.
  - now rewrite app_nil_r.
  - rewrite IH. unfold has_week_key at 2.
    destruct (fromisoformat (timestamp c)) as [date|]; [|reflexivity].
    rewrite group_append_bucket.
    destruct (str_eqb (week_key date) k); [|reflexivity].
    now rewrite <- app_assoc.
Qed.

Lemma group_by_week_bucket k conversations :
  bucket k (group_by_week conversations)
  = List.filter (has_week_key k) conversations.
Proof. apply (group_by_week_bucket_acc k conversations []). Qed.

Lemma group_by_week_acc conversations groups :
  fold_left
    (fun weekly_groups conv =>
       match fromisoformat (timestamp conv) with
       | Some date => group_append (week_key date) conv weekly_groups
       | None => weekly_groups
       end)
    (List.filter parsable conversations) groups
  = fold_left
      (fun weekly_groups conv =>
         match fromisoformat (timestamp conv) with
         | Some date => group_append (week_key date) conv weekly_groups
         | None => weekly_groups
         end)
      conversations groups.
Proof.
  revert groups; induction conversations as [|c cs IH]; intros groups;
    [reflexivity|].
  simpl. unfold parsable at 1.
  destruct (fromisoformat (timestamp c)) eqn:E; simpl.
  - rewrite E. apply IH.
  - apply IH.
Qed.

Lemma group_by_week_skips_unparsable conversations :
  group_by_week (List.filter parsable conversations)
  = group_by_week conversations.
Proof. apply group_by_week_acc. Qed.

Lemma weekly_summary_defined week convs :
  (5 <= length convs)%nat ->
  exists summary, _create_weekly_summary week convs = Some summary.
Proof.
  destruct convs as [|c convs]; simpl; [lia|]. intros _. eauto.
Qed.

Lemma summarize_weeks_cons week convs rest summaries :
  summarize_weeks ((week, convs) :: rest) summaries
  = if (5 <=? length convs)%nat then
      match _create_weekly_summary week convs with
      | Some s => summarize_weeks rest (summaries ++ [s])
      | None => None
      end
    else summarize_weeks rest summaries.
Proof. reflexivity. Qed.

Lemma summarize_weeks_defined groups summaries :
  exists result, summarize_weeks groups summaries = Some result.
Proof.
  revert summaries; induction groups as [|[week convs] groups IH];
    intros summaries; [simpl; eauto|].
  rewrite summarize_weeks_cons.
  destruct (Nat.leb_spec 5 (length convs)) as [Hlen|_]; [|apply IH].
  destruct (weekly_summary_defined week convs Hlen) as [s ->]. apply IH.
Qed.

(** One summary for each bucket of at least five records, in bucket order,
    and none for the others. *)
Lemma summarize_weeks_acc groups summaries :
  exists produced,
    summarize_weeks groups summaries = Some (summaries ++ produced)
    /\ Forall2 (fun s g => _create_weekly_summary (fst g) (snd g) = Some s)
         produced (List.filter full_bucket groups).
Proof.
  revert summaries; induction groups as [|[week convs] groups IH];
    intros summaries.
  - exists []. simpl. rewrite app_nil_r. split; [reflexivity | constructor].
  - rewrite summarize_weeks_cons.
    change (List.filter full_bucket ((week, convs) :: groups))
      with (if (5 <=? length convs)%nat
            then (week, convs) :: List.filter full_bucket groups
            else List.filter full_bucket groups).
    destruct (Nat.leb_spec 5 (length convs)) as [Hlen|_].
    + destruct (weekly_summary_defined week convs Hlen) as [s Hs]. rewrite Hs.
      destruct (IH (summaries ++ [s])) as (produced & Hsum & Hall).
      exists (s :: produced). split.
      * rewrite Hsum, <- app_assoc. reflexivity.
      * constructor; assumption.
    + apply IH.
Qed.

Lemma summaries_one_per_full_bucket conversations :
  exists produced,
    _group_conversations_by_time conversations = Some produced
    /\ Forall2 (fun s g => _create_weekly_summary (fst g) (snd g) = Some s)
         produced (List.filter full_bucket (group_by_week conversations)).
Proof. apply (summarize_weeks_acc (group_by_week conversations) []). Qed.

(** C9. Records whose timestamp does not parse are skipped one by one:
    grouping returns the summaries it returns for the input without those
    records, and it always returns. *)
Theorem C9_unparsable_timestamps_skipped (conversations : list Interaction) :
  _group_conversations_by_time conversations
  = _group_conversations_by_time (List.filter parsable conversations)
  /\ exists summaries,
      _group_conversations_by_time conversations = Some summaries.
Proof.
  unfold _group_conversations_by_time. split.
  - now rewrite group_by_week_skips_unparsable.
  - apply summarize_weeks_defined.
Qed.

End SummaryProofs.

(** ** The search at the level of objects *)

Lemma sort_desc_Forall2 {A B} (R : A -> B -> Prop)
    (geA : A -> A -> bool) (geB : B -> B -> bool) la lb :
  (forall a b a' b', R a b -> R a' b' -> geA a a' = geB b b') ->
  Forall2 R la lb -> Forall2 R (sort_desc geA la) (sort_desc geB lb).
Proof.
  intros Hge. induction 1 as [|a b la lb Hab Hl IH]; simpl; [constructor|].
  revert IH. generalize (sort_desc geA la) (sort_desc geB lb).
  induction 1 as [|a' b' la' lb' Hab' Hl' IH']; simpl.
  - repeat constructor. exact Hab.
  - rewrite (Hge _ _ _ _ Hab Hab'). destruct (geB b b').
    + repeat constructor; assumption.
    + constructor; assumption.
Qed.

Lemma slice_to_Forall2 {A B} (R : A -> B -> Prop) la lb n :
  Forall2 R la lb -> Forall2 R (slice_to la n) (slice_to lb n).
Proof.
  intros H. unfold slice_to.
  pose proof H as Hlen. apply Forall2_length in Hlen. rewrite Hlen.
  destruct (n <? 0); now apply Forall2_take.
Qed.

Section ObjectProofs.
Context {rt : PyRuntime}.

Lemma new_object_fresh objs v :
  objs !! fst (Objects.new_object objs v) = None.
Proof.
  unfold Objects.new_object. simpl. apply not_elem_of_dom_1. apply is_fresh.
Qed.

Lemma new_object_extends objs v : objs ⊆ snd (Objects.new_object objs v).
Proof.
  apply insert_subseteq. exact (new_object_fresh objs v).
Qed.

Lemma refs_hold_mono objs objs' refs vals :
  objs ⊆ objs' -> refs_hold objs refs vals -> refs_hold objs' refs vals.
Proof.
  intros Hsub H. unfold refs_hold in *.
  eapply Forall2_impl; [|exact H].
  intros l v Hl. simpl in *. exact (lookup_weaken _ _ _ _ Hl Hsub).
Qed.

Lemma fresh_mono (objs0 objs : gmap nat Interaction) l :
  objs0 ⊆ objs -> objs !! l = None -> objs0 !! l = None.
Proof.
  intros Hsub Hl. destruct (objs0 !! l) eqn:E; [|reflexivity].
  rewrite (lookup_weaken _ _ _ _ E Hsub) in Hl. discriminate.
Qed.

(** [json.load] adds objects and changes none. *)
Lemma json_load_acc records objs refs0 vals0 :
  refs_hold objs refs0 vals0 ->
  let r :=
    fold_left
      (fun acc v =>
         let '(l, objs') := Objects.new_object (snd acc) v in
         (fst acc ++ [l], objs'))
      records (refs0, objs) in
  objs ⊆ snd r /\ refs_hold (snd r) (fst r) (vals0 ++ records).
Proof.
  revert objs refs0 vals0.
  induction records as [|v records IH]; intros objs refs0 vals0 H0; simpl.
  - now rewrite app_nil_r.
  - pose proof (new_object_extends objs v) as Hext.
    pose proof (new_object_fresh objs v) as Hfr.
    unfold Objects.new_object in *. simpl in *.
    match goal with |- context [fold_left _ _ (?refs, ?o)] =>
      destruct (IH o refs (vals0 ++ [v])) as [Hsub Hhold]
    end.
    { apply Forall2_app; [eapply refs_hold_mono; eauto|].
      repeat constructor. apply lookup_insert_eq. }
    split; [etrans; eauto|]. now rewrite <- app_assoc in Hhold.
Qed.

Lemma json_load_spec records objs :
  objs ⊆ snd (Objects.json_load records objs)
  /\ refs_hold (snd (Objects.json_load records objs))
       (fst (Objects.json_load records objs)) records.
Proof. apply (json_load_acc records objs [] []). constructor. Qed.

Lemma score_step_some query_terms acc conv d :
  snd acc !! conv = Some d ->
  Objects.score_step query_terms acc conv
  = let score := _calculate_relevance_score query_terms (conv_text d) in
    if Qgtb score 0
    then (fst acc ++ [fresh (dom (snd acc))],
          <[fresh (dom (snd acc)) := set_relevance_score d score]> (snd acc))
    else acc.
Proof.
  intros H. unfold Objects.score_step. rewrite H. cbv zeta.
  destruct (Qgtb _ 0); [|reflexivity].
  unfold Objects.new_object. now rewrite alter_insert_eq.
Qed.

(** The scoring loop adds one object per record with a positive score, a
    copy carrying the score, and changes no object that was there. *)
Lemma score_loop_spec query_terms refs vals objs0 acc_refs acc_vals objs :
  objs0 ⊆ objs ->
  refs_hold objs refs vals ->
  refs_hold objs acc_refs acc_vals ->
  Forall (fun l => objs0 !! l = None) acc_refs ->
  let r := fold_left (Objects.score_step query_terms) refs (acc_refs, objs) in
  objs ⊆ snd r
  /\ Forall (fun l => objs0 !! l = None) (fst r)
  /\ refs_hold (snd r) (fst r)
       (fold_left
          (fun scored conv =>
             let score :=
               _calculate_relevance_score query_terms (conv_text conv) in
             if Qgtb score 0 then scored ++ [set_relevance_score conv score]
             else scored)
          vals acc_vals).
Proof.
  intros H0 Hrefs Hacc Hnew.
  revert vals acc_refs acc_vals objs H0 Hrefs Hacc Hnew.
  induction refs as [|l refs IH];
    intros vals acc_refs acc_vals objs H0 Hrefs Hacc Hnew.
  - inversion Hrefs; subst. simpl. auto.
  - inversion Hrefs as [|? v ? vals' Hl Hrest]; subst. simpl.
    rewrite (score_step_some query_terms (acc_refs, objs) l v Hl).
    cbv zeta. simpl fst. simpl snd.
    destruct (Qgtb (_calculate_relevance_score query_terms (conv_text v)) 0).
    + pose proof (new_object_fresh objs v) as Hfr.
      unfold Objects.new_object in Hfr. simpl in Hfr.
      set (l' := fresh (dom objs)) in *.
      set (copy :=
             set_relevance_score v
               (_calculate_relevance_score query_terms (conv_text v))).
      assert (Hext : objs ⊆ <[l':=copy]> objs)
        by now apply insert_subseteq.
      destruct (IH vals' (acc_refs ++ [l']) (acc_vals ++ [copy])
                  (<[l':=copy]> objs)) as (Hsub & Hfresh & Hhold).
      * etrans; eauto.
      * eapply refs_hold_mono; eauto.
      * apply Forall2_app; [eapply refs_hold_mono; eauto|].
        repeat constructor. apply lookup_insert_eq.
      * apply Forall_app. split; [exact Hnew|].
        repeat constructor. eapply fresh_mono; eauto.
      * repeat split; auto. etrans; eauto.
    + apply IH; auto.
Qed.

(** C10. The search changes no stored record.  At the level of objects:
    the file and the window are the same after the call, every object that
    existed before holds the same fields after it, the returned records are
    objects that did not exist before, and they hold the values the search
    computes on values, scores included. *)
Theorem C10_search_changes_no_stored_record
    (s : Objects.Store) (query : str) (limit : option Z) :
  let result := Objects.search_relevant_conversations s query limit in
  Objects.log (snd result) = Objects.log s
  /\ Objects.window (snd result) = Objects.window s
  /\ (forall l d,
        Objects.objects s !! l = Some d ->
        Objects.objects (snd result) !! l = Some d)
  /\ Forall (fun l => Objects.objects s !! l = None) (fst result)
  /\ refs_hold (Objects.objects (snd result)) (fst result)
       (search_relevant_conversations (Objects.log s) query limit).
Proof.
  unfold Objects.search_relevant_conversations,
    search_relevant_conversations.
  destruct (Objects.log s) as [records|] eqn:Hlog; simpl;
    [|rewrite Hlog; repeat split; auto; constructor].
  destruct (json_load_spec records (Objects.objects s)) as [Hsub1 Hload].
  destruct (Objects.json_load records (Objects.objects s))
    as [all_history objs1] eqn:Hjson. simpl in Hsub1, Hload.
  destruct Hload as [|l v refs vals Hl Hrest].
  { simpl. rewrite Hlog. repeat split; auto; try constructor.
    intros l d Hd. eapply lookup_weaken; eauto. }
  set (query_terms := _extract_terms (lower query)).
  destruct (score_loop_spec query_terms (l :: refs) (v :: vals)
              (Objects.objects s) [] [] objs1)
    as (Hsub2 & Hfresh & Hhold); auto.
  { now constructor. }
  { constructor. }
  destruct (fold_left (Objects.score_step query_terms) (l :: refs) ([], objs1))
    as [scored objs2] eqn:Hfold. simpl in Hsub2, Hfresh, Hhold.
  simpl. rewrite Hlog. repeat split; auto.
  - intros l0 d Hd. eapply lookup_weaken; [exact Hd|]. etrans; eauto.
  - rewrite Forall_forall in *. intros l0 Hl0. apply Hfresh.
    apply slice_to_incl in Hl0.
    eapply Permutation_in; [apply sort_desc_perm | exact Hl0].
  - apply slice_to_Forall2, sort_desc_Forall2; [|exact Hhold].
    intros a b a' b' Ha Ha'.
    unfold Objects.by_relevance_at, Objects.score_at, by_relevance.
    now rewrite Ha, Ha'.
Qed.

End ObjectProofs.

(** * Further properties *)

(** ** The log, the window and the summary file over a session *)

Lemma slice_from_neg_last_n {A} (l : list A) (n : Z) :
  0 < n -> slice_from l (- n) = last_n (Nat.min (Z.to_nat n) (length l)) l.
Proof.
  intros Hn. unfold slice_from, last_n.
  destruct (Z.ltb_spec (- n) 0); [|lia]. f_equal. lia.
Qed.


Section SessionProofs.
Context {rt : PyRuntime}.

Lemma create_summary_frame st history :
  memory_file (_create_conversation_summary st history) = memory_file st
  /\ conversation_summaries (_create_conversation_summary st history)
     = conversation_summaries st.
Proof.
  unfold _create_conversation_summary.
  destruct (_ <? _)%nat; [split; reflexivity|].
  destruct (_group_conversations_by_time _); split; reflexivity.
Qed.

Lemma check_and_summarize_frame st :
  memory_file (_check_and_summarize st) = memory_file st
  /\ conversation_summaries (_check_and_summarize st)
     = conversation_summaries st.
Proof.
  unfold _check_and_summarize.
  destruct (memory_file st) eqn:E; [|rewrite E; split; reflexivity].
  destruct (_ <=? _); [|rewrite E; split; reflexivity].
  rewrite <- E. apply create_summary_frame.
Qed.


Lemma summaries_add st now u a m :
  conversation_summaries (add_interaction st now u a m)
  = conversation_summaries st.
Proof.
  unfold add_interaction.
  rewrite (proj2 (check_and_summarize_frame _)). reflexivity.
Qed.


Lemma summaries_after_calls st calls :
  conversation_summaries (run_calls st calls) = conversation_summaries st.
Proof.
  induction calls as [|c calls IH] using rev_ind; [reflexivity|].
  now rewrite run_calls_snoc, summaries_add.
Qed.








(** X3. [add_interaction] never changes the summaries held in memory: the
    summaries it writes to the summary file are not the ones
    [get_intelligent_context] reads until [load_summaries] runs again. *)
Theorem X3_summaries_in_memory_unchanged (st : State) (calls : list Call)
    (current_message : str) :
  conversation_summaries (run_calls st calls) = conversation_summaries st
  /\ _get_relevant_summaries (conversation_summaries (run_calls st calls))
       current_message
     = _get_relevant_summaries (conversation_summaries st) current_message.
Proof. rewrite summaries_after_calls. split; reflexivity. Qed.

End SessionProofs.

Section SummaryFileProofs.
Context {rt : PyRuntime}.


Lemma check_and_summarize_below st history :
  memory_file st = Some history ->
  Z.of_nat (length history) < LONG_TERM_SUMMARY_THRESHOLD ->
  _check_and_summarize st = st.
Proof.
  intros Hf Hlen. unfold _check_and_summarize. rewrite Hf.
  destruct (Z.leb_spec LONG_TERM_SUMMARY_THRESHOLD (Z.of_nat (length history)));
    [lia | reflexivity].
Qed.


(** X4. While the log holds fewer than 50 records after the call,
    [add_interaction] leaves the summary file as it is. *)
Theorem X4_no_summary_below_threshold
    (st : State) (now u a : str) (m : list (str * str)) :
  Z.of_nat (length (log_of st)) + 1 < LONG_TERM_SUMMARY_THRESHOLD ->
  summary_file (add_interaction st now u a m) = summary_file st.
Proof.
  intros Hlen. unfold add_interaction. cbv zeta.
  erewrite check_and_summarize_below; [reflexivity | reflexivity |].
  rewrite length_app. simpl length. fold (log_of st). lia.
Qed.



Lemma weekly_summary_period week convs s :
  _create_weekly_summary week convs = Some s ->
  period s = week /\ conversation_count s = length convs.
Proof.
  destruct convs as [|c convs]; [discriminate|].
  intros [= <-]. split; reflexivity.
Qed.

Lemma produced_periods produced groups :
  Forall2 (fun s g => _create_weekly_summary (fst g) (snd g) = Some s)
    produced groups ->
  List.map period produced = List.map fst groups.
Proof.
  induction 1 as [|s g produced groups Hs _ IH]; [reflexivity|].
  simpl. rewrite IH. f_equal. now apply weekly_summary_period in Hs.
Qed.


Lemma group_by_week_snoc conversations conv :
  group_by_week (conversations ++ [conv])
  = match fromisoformat (timestamp conv) with
    | Some date =>
        group_append (week_key date) conv (group_by_week conversations)
    | None => group_by_week conversations
    end.
Proof. unfold group_by_week. now rewrite fold_left_app. Qed.






End SummaryFileProofs.

(** ** Counting terms and the topics of a summary *)

Lemma str_eqb_refl (a : str) : str_eqb a a = true.
Proof. now apply str_eqb_eq. Qed.

Lemma str_eqb_sym (a b : str) : str_eqb a b = str_eqb b a.
Proof.
  destruct (str_eqb a b) eqn:E.
  - apply str_eqb_eq in E as ->. symmetry. apply str_eqb_refl.
  - symmetry. apply str_eqb_neq. apply str_eqb_neq in E. congruence.
Qed.

Lemma occurrences_pos t terms : (0 < occurrences t terms)%nat <-> In t terms.
Proof.
  unfold occurrences. split.
  - intros H. destruct (List.filter (str_eqb t) terms) as [|x l] eqn:E;
      [simpl in H; lia|].
    assert (Hx : In x (List.filter (str_eqb t) terms)) by (rewrite E; now left).
    apply filter_In in Hx as [Hx Ht]. apply str_eqb_eq in Ht. now subst.
  - intros H.
    assert (Hx : In t (List.filter (str_eqb t) terms)).
    { apply filter_In. split; [exact H | apply str_eqb_refl]. }
    destruct (List.filter (str_eqb t) terms); [destruct Hx | simpl; lia].
Qed.

Lemma counter_get_incr t t' c :
  counter_get t' (counter_incr t c)
  = if str_eqb t t' then Some (S (count_of t' c)) else counter_get t' c.
Proof.
  unfold count_of. induction c as [|[k n] c IH]; simpl.
  - reflexivity.
  - destruct (str_eqb k t) eqn:Ekt; simpl.
    + apply str_eqb_eq in Ekt as ->. now destruct (str_eqb t t').
    + rewrite IH. destruct (str_eqb k t') eqn:Ekt'; [|reflexivity].
      apply str_eqb_eq in Ekt' as ->.
      now rewrite str_eqb_sym, Ekt.
Qed.

Lemma counter_incr_keys_in t c k :
  In k (List.map fst (counter_incr t c)) -> k = t \/ In k (List.map fst c).
Proof.
  induction c as [|[k0 n] c IH]; simpl.
  - intros [<-|[]]. now left.
  - destruct (str_eqb k0 t); simpl; [tauto|].
    intros [<-|H]; [tauto|]. destruct (IH H); tauto.
Qed.

Lemma counter_keys_incr t c :
  NoDup (List.map fst c) -> NoDup (List.map fst (counter_incr t c)).
Proof.
  induction c as [|[k0 n] c IH]; simpl; intros Hnd.
  - repeat constructor. intros [].
  - inversion Hnd as [|? ? Hk Hc]; subst.
    destruct (str_eqb k0 t) eqn:E; simpl; [now constructor|].
    constructor; [|apply IH; exact Hc].
    intros Hk0. destruct (counter_incr_keys_in _ _ _ Hk0) as [->|H];
      [|contradiction].
    rewrite str_eqb_refl in E. discriminate.
Qed.

Lemma counter_fold_spec terms c0 t :
  count_of t (fold_left (fun c x => counter_incr x c) terms c0)
  = (occurrences t terms + count_of t c0)%nat.
Proof.
  revert c0; induction terms as [|x terms IH]; intros c0; [reflexivity|].
  simpl fold_left. rewrite IH. unfold occurrences. simpl List.filter.
  unfold count_of at 1. rewrite counter_get_incr.
  rewrite (str_eqb_sym x t).
  destruct (str_eqb t x); simpl; [lia|reflexivity].
Qed.

Lemma counter_fold_keys terms c0 :
  NoDup (List.map fst c0) ->
  NoDup (List.map fst (fold_left (fun c x => counter_incr x c) terms c0)).
Proof.
  revert c0; induction terms as [|x terms IH]; intros c0 H; [exact H|].
  simpl. apply IH. now apply counter_keys_incr.
Qed.

Lemma counter_get_in k n c :
  NoDup (List.map fst c) -> In (k, n) c -> counter_get k c = Some n.
Proof.
  induction c as [|[k0 n0] c IH]; simpl; intros Hnd Hin; [destruct Hin|].
  inversion Hnd as [|? ? Hk Hc]; subst.
  destruct Hin as [[= -> ->]|Hin].
  - now rewrite str_eqb_refl.
  - destruct (str_eqb k0 k) eqn:E; [|now apply IH].
    apply str_eqb_eq in E as ->. exfalso. apply Hk.
    change k with (fst (k, n)). now apply in_map.
Qed.

Lemma counter_in_get k n c : counter_get k c = Some n -> In (k, n) c.
Proof.
  induction c as [|[k0 n0] c IH]; simpl; [discriminate|].
  destruct (str_eqb k0 k) eqn:E.
  - apply str_eqb_eq in E as ->. intros [= ->]. now left.
  - intros H. right. now apply IH.
Qed.

Lemma counter_positive c :
  Forall (fun e => (0 < snd e)%nat) c ->
  forall t, Forall (fun e => (0 < snd e)%nat) (counter_incr t c).
Proof.
  intros H t. induction H as [|[k n] c Hn Hc IH]; simpl.
  - repeat constructor.
  - destruct (str_eqb k t); constructor; simpl in *; auto; lia.
Qed.

(** An entry of [Counter(terms)] holds a term of [terms] with the number of
    its occurrences, and every term has its entry. *)
Lemma Counter_entries terms k n :
  In (k, n) (Counter terms)
  <-> In k terms /\ n = occurrences k terms.
Proof.
  unfold Counter.
  assert (Hnd : NoDup (List.map fst
                         (fold_left (fun c x => counter_incr x c) terms [])))
    by (apply counter_fold_keys; constructor).
  pose proof (counter_fold_spec terms [] k) as Hspec.
  unfold count_of at 2 in Hspec. simpl in Hspec. rewrite Nat.add_0_r in Hspec.
  split.
  - intros Hin. pose proof (counter_get_in _ _ _ Hnd Hin) as Hget.
    unfold count_of in Hspec. rewrite Hget in Hspec. subst n.
    assert (Hpos : Forall (fun e => (0 < snd e)%nat)
                     (fold_left (fun c x => counter_incr x c) terms [])).
    { clear. generalize (@nil (str * nat)) (Forall_nil (fun e : str * nat => (0 < snd e)%nat)).
      induction terms as [|x terms IH]; intros c0 H0; [exact H0|].
      simpl. apply IH. now apply counter_positive. }
    rewrite Forall_forall in Hpos. specialize (Hpos _ Hin). simpl in Hpos.
    split; [now apply occurrences_pos | reflexivity].
  - intros [Hk ->]. apply counter_in_get.
    apply occurrences_pos in Hk. unfold count_of in Hspec.
    destruct (counter_get k _) as [n|]; [now rewrite Hspec | lia].
Qed.

Lemma Counter_keys_nodup terms : NoDup (List.map fst (Counter terms)).
Proof. apply counter_fold_keys. constructor. Qed.

Lemma StronglySorted_app_inv {A} (R : A -> A -> Prop) l1 l2 :
  StronglySorted R (l1 ++ l2) ->
  forall a b, In a l1 -> In b l2 -> R a b.
Proof.
  induction l1 as [|x l1 IH]; simpl; intros Hs a b Ha Hb; [destruct Ha|].
  inversion Hs as [|? ? Hs' Hx]; subst.
  destruct Ha as [->|Ha]; [|now apply IH].
  rewrite Forall_forall in Hx. apply Hx. apply in_or_app. now right.
Qed.

Lemma StronglySorted_map_in {A B} (R : A -> A -> Prop) (R' : B -> B -> Prop)
    (f : A -> B) l :
  (forall a b, In a l -> In b l -> R a b -> R' (f a) (f b)) ->
  StronglySorted R l -> StronglySorted R' (List.map f l).
Proof.
  intros HR Hs. induction Hs as [|x l Hs IH Hx]; simpl; constructor.
  - apply IH. intros a b Ha Hb. apply HR; now right.
  - rewrite Forall_map, Forall_forall. rewrite Forall_forall in Hx.
    intros y Hy. apply HR; [now left | now right | now apply Hx].
Qed.

Lemma NoDup_firstn {A} n (l : list A) : NoDup l -> NoDup (firstn n l).
Proof.
  intros H. rewrite <- (firstn_skipn n l) in H.
  now apply NoDup_app_remove_r in H.
Qed.

Lemma count_ge_total a b : count_ge a b = false -> count_ge b a = true.
Proof. unfold count_ge. rewrite Nat.leb_nle, Nat.leb_le. lia. Qed.

Lemma count_ge_trans a b c :
  count_ge a b = true -> count_ge b c = true -> count_ge a c = true.
Proof. unfold count_ge. rewrite !Nat.leb_le. lia. Qed.

(** [Counter(terms).most_common(n)]: at most [n] distinct terms of [terms],
    by non-increasing number of occurrences, and no term left out occurs
    more often than a term taken; when fewer than [n] are returned, no term
    is left out. *)
Lemma most_common_spec n terms :
  let topics := List.map fst (most_common n (Counter terms)) in
  (length topics <= n)%nat
  /\ NoDup topics
  /\ (forall t, In t topics -> In t terms)
  /\ StronglySorted
       (fun a b => (occurrences b terms <= occurrences a terms)%nat) topics
  /\ (forall t t', In t topics -> In t' terms -> ~ In t' topics ->
                   (occurrences t' terms <= occurrences t terms)%nat)
  /\ ((length topics < n)%nat -> forall t, In t terms -> In t topics).
Proof.
  intros topics. unfold topics, most_common.
  change (fun a b : str * nat => (snd b <=? snd a)%nat) with count_ge.
  set (sorted := sort_desc count_ge (Counter terms)).
  assert (Hperm : Permutation sorted (Counter terms))
    by apply sort_desc_perm.
  assert (Hsorted : StronglySorted (fun a b => count_ge a b = true) sorted)
    by (apply sort_desc_sorted;
        [apply count_ge_total | apply count_ge_trans]).
  assert (Hentry : forall e, In e sorted ->
                     In (fst e) terms /\ snd e = occurrences (fst e) terms).
  { intros [k m] He. apply Counter_entries.
    eapply Permutation_in; [exact Hperm | exact He]. }
  assert (Hnd : NoDup (List.map fst sorted)).
  { eapply Permutation_NoDup;
      [apply Permutation_sym, Permutation_map, Hperm
      | apply Counter_keys_nodup]. }
  assert (Htop : forall e, In e (firstn n sorted) -> In e sorted)
    by (intros e; apply In_firstn).
  repeat split.
  - rewrite length_map, length_firstn. lia.
  - rewrite <- firstn_map. now apply NoDup_firstn.
  - intros t Ht. apply in_map_iff in Ht as (e & <- & He).
    now apply Hentry, Htop.
  - eapply StronglySorted_map_in;
      [|apply StronglySorted_firstn; exact Hsorted].
    intros a b Ha Hb Hab. unfold count_ge in Hab. apply Nat.leb_le in Hab.
    destruct (Hentry a (Htop a Ha)) as [_ <-].
    destruct (Hentry b (Htop b Hb)) as [_ <-]. exact Hab.
  - intros t t' Ht Ht' Hout. apply in_map_iff in Ht as (e & <- & He).
    assert (He' : In (t', occurrences t' terms) sorted).
    { eapply Permutation_in; [apply Permutation_sym, Hperm|].
      now apply Counter_entries. }
    rewrite <- (firstn_skipn n sorted) in He'.
    apply in_app_or in He' as [He'|He'].
    { exfalso. apply Hout. apply in_map_iff.
      exists (t', occurrences t' terms). now split. }
    rewrite <- (firstn_skipn n sorted) in Hsorted.
    pose proof (StronglySorted_app_inv _ _ _ Hsorted _ _ He He') as Hge.
    unfold count_ge in Hge. apply Nat.leb_le in Hge. simpl in Hge.
    destruct (Hentry e (Htop e He)) as [_ <-]. exact Hge.
  - rewrite length_map, length_firstn. intros Hlt t Ht.
    assert (He : In (t, occurrences t terms) sorted).
    { eapply Permutation_in; [apply Permutation_sym, Hperm|].
      now apply Counter_entries. }
    apply in_map_iff. exists (t, occurrences t terms). split; [reflexivity|].
    rewrite firstn_all2 by lia. exact He.
Qed.

Section TopicProofs.
Context {rt : PyRuntime}.

(** X8. The [main_topics] of a weekly summary are at most ten distinct
    extracted terms of the lowercased text of its conversations, listed by
    non-increasing number of occurrences; no term left out occurs more often
    than a listed one, and fewer than ten are listed only when there are no
    other terms. *)
Theorem X8_main_topics_are_the_most_frequent_terms
    (week : str) (first : Interaction) (others : list Interaction) :
  let terms := _extract_terms (bucket_text (first :: others)) in
  exists s,
    _create_weekly_summary week (first :: others) = Some s
    /\ (length (main_topics s) <= 10)%nat
    /\ NoDup (main_topics s)
    /\ (forall t, In t (main_topics s) -> In t terms)
    /\ StronglySorted
         (fun a b => (occurrences b terms <= occurrences a terms)%nat)
         (main_topics s)
    /\ (forall t t', In t (main_topics s) -> In t' terms ->
                     ~ In t' (main_topics s) ->
                     (occurrences t' terms <= occurrences t terms)%nat)
    /\ ((length (main_topics s) < 10)%nat ->
        forall t, In t terms -> In t (main_topics s)).
Proof.
  intros terms. eexists. split; [reflexivity|]. cbn [main_topics].
  apply (most_common_spec 10 terms).
Qed.

End TopicProofs.

(** ** The summaries of one summarisation *)

Lemma group_append_keys_in k conv groups k' :
  In k' (List.map fst (group_append k conv groups)) ->
  k' = k \/ In k' (List.map fst groups).
Proof.
  induction groups as [|[k0 convs] groups IH]; simpl.
  - intros [<-|[]]. now left.
  - destruct (str_eqb k0 k); simpl; [tauto|].
    intros [<-|H]; [tauto|]. destruct (IH H); tauto.
Qed.

Lemma group_append_keys_nodup k conv groups :
  NoDup (List.map fst groups) ->
  NoDup (List.map fst (group_append k conv groups)).
Proof.
  induction groups as [|[k0 convs] groups IH]; simpl; intros Hnd.
  - repeat constructor. intros [].
  - inversion Hnd as [|? ? Hk Hg]; subst.
    destruct (str_eqb k0 k) eqn:E; simpl; [now constructor|].
    constructor; [|now apply IH].
    intros Hk0. destruct (group_append_keys_in _ _ _ _ Hk0) as [->|H];
      [|contradiction].
    rewrite str_eqb_refl in E. discriminate.
Qed.

Lemma bucket_of_entry k convs groups :
  NoDup (List.map fst groups) -> In (k, convs) groups ->
  bucket k groups = convs.
Proof.
  induction groups as [|[k0 convs0] groups IH]; simpl; intros Hnd Hin;
    [destruct Hin|].
  inversion Hnd as [|? ? Hk Hg]; subst.
  destruct Hin as [[= -> ->]|Hin].
  - now rewrite str_eqb_refl.
  - destruct (str_eqb k0 k) eqn:E; [|now apply IH].
    apply str_eqb_eq in E as ->. exfalso. apply Hk.
    change k with (fst (k, convs)). now apply in_map.
Qed.

Lemma entry_of_bucket k groups :
  bucket k groups <> [] -> In (k, bucket k groups) groups.
Proof.
  induction groups as [|[k0 convs0] groups IH]; simpl; [congruence|].
  destruct (str_eqb k0 k) eqn:E.
  - apply str_eqb_eq in E as ->. now left.
  - intros H. right. now apply IH.
Qed.

Lemma NoDup_map_filter {A B} (f : A -> B) (p : A -> bool) l :
  NoDup (List.map f l) -> NoDup (List.map f (List.filter p l)).
Proof.
  induction l as [|x l IH]; simpl; intros H; [constructor|].
  inversion H as [|? ? Hx Hl]; subst.
  destruct (p x); simpl; [|now apply IH].
  constructor; [|now apply IH].
  intros Hin. apply Hx. apply in_map_iff in Hin as (y & Hy & Hin).
  apply in_map_iff. exists y. split; [exact Hy|].
  now apply filter_In in Hin.
Qed.

Lemma Forall2_in_left {A B} (R : A -> B -> Prop) l l' :
  Forall2 R l l' -> forall x, In x l -> exists y, In y l' /\ R x y.
Proof.
  induction 1 as [|a b l l' Hab _ IH]; intros x Hx; [destruct Hx|].
  destruct Hx as [<-|Hx].
  - exists b. split; [now left | exact Hab].
  - destruct (IH x Hx) as (y & Hy & Hxy). exists y. split; [now right|exact Hxy].
Qed.

Section BucketProofs.
Context {rt : PyRuntime}.

Lemma group_by_week_keys_nodup conversations :
  NoDup (List.map fst (group_by_week conversations)).
Proof.
  induction conversations as [|c conversations IH] using rev_ind.
  - constructor.
  - rewrite group_by_week_snoc.
    destruct (fromisoformat (timestamp c)); [|exact IH].
    now apply group_append_keys_nodup.
Qed.

(** An entry of the week dict holds the records filed under its key. *)
Lemma group_by_week_entry conversations k convs :
  In (k, convs) (group_by_week conversations) ->
  convs = List.filter (has_week_key k) conversations.
Proof.
  intros Hin. rewrite <- group_by_week_bucket. symmetry.
  apply bucket_of_entry; [apply group_by_week_keys_nodup | exact Hin].
Qed.

(** X7. One call of [_group_conversations_by_time] returns summaries of
    pairwise different periods; a period has a summary exactly when at least
    five of the records parse to its key, and the summary's
    [conversation_count] is the number of those records. *)
Theorem X7_one_summary_per_full_week_key (conversations : list Interaction) :
  exists produced,
    _group_conversations_by_time conversations = Some produced
    /\ NoDup (List.map period produced)
    /\ Forall
         (fun s =>
            conversation_count s
            = length (List.filter (has_week_key (period s)) conversations))
         produced
    /\ (forall k,
          In k (List.map period produced)
          <-> (5 <= length (List.filter (has_week_key k) conversations))%nat).
Proof.
  destruct (summaries_one_per_full_bucket conversations)
    as (produced & Hp & Hall).
  exists produced. split; [exact Hp|].
  pose proof (produced_periods _ _ Hall) as Hperiods.
  split; [|split].
  - rewrite Hperiods. apply NoDup_map_filter, group_by_week_keys_nodup.
  - rewrite Forall_forall. intros s Hs.
    destruct (Forall2_in_left _ _ _ Hall s Hs) as ([k convs] & Hin & Hsum).
    apply filter_In in Hin as [Hin _]. simpl in Hsum.
    apply weekly_summary_period in Hsum as [-> ->].
    now rewrite (group_by_week_entry _ _ _ Hin) at 1.
  - intros k. rewrite Hperiods. split.
    + intros Hin. apply in_map_iff in Hin as ([k0 convs] & Hk & Hin).
      simpl in Hk. subst k0. apply filter_In in Hin as [Hin Hfull].
      rewrite <- (group_by_week_entry _ _ _ Hin).
      unfold full_bucket in Hfull. now apply Nat.leb_le in Hfull.
    + intros Hlen. rewrite <- group_by_week_bucket in Hlen.
      apply in_map_iff.
      exists (k, bucket k (group_by_week conversations)).
      split; [reflexivity|]. apply filter_In. split.
      * apply entry_of_bucket. intros E. rewrite E in Hlen. simpl in Hlen. lia.
      * unfold full_bucket. now apply Nat.leb_le.
Qed.

End BucketProofs.

(** ** More on the context composer *)

Section ComposerMore.
Context {rt : PyRuntime}.

(** The recency loop with its stopping condition: the record that ends the
    loop does not fit on top of those taken. *)
Lemma recency_loop_stop max_tokens newest_first ctx :
  exists taken rest,
    newest_first = taken ++ rest
    /\ recency_loop max_tokens newest_first ctx
       = {| context_messages :=
              flat_map recent_messages (rev taken) ++ context_messages ctx;
            context_sources :=
              repeat recent (length taken) ++ context_sources ctx;
            current_tokens := current_tokens ctx + tokens_of taken |}
    /\ (forall o rest', rest = o :: rest' ->
          max_tokens < current_tokens ctx + tokens_of taken + stored_tokens o)
    /\ (current_tokens ctx <= max_tokens ->
        current_tokens ctx + tokens_of taken <= max_tokens).
Proof.
  revert ctx. induction newest_first as [|i older IH]; intros ctx.
  - exists [], []. unfold tokens_of. simpl. rewrite Z.add_0_r.
    repeat split; try (destruct ctx; reflexivity); try lia.
    intros o rest' [=].
  - simpl.
    destruct (Z.ltb_spec max_tokens (current_tokens ctx + stored_tokens i))
      as [Hover|Hfit].
    + exists [], (i :: older). unfold tokens_of. simpl. rewrite Z.add_0_r.
      repeat split; try (destruct ctx; reflexivity); try lia.
      intros o rest' [= <- <-]. lia.
    + match goal with |- context [recency_loop _ _ ?c] =>
        destruct (IH c) as (taken & rest & -> & Hloop & Hstop & Hb)
      end.
      exists (i :: taken), rest. rewrite Hloop. simpl.
      assert (Htok : tokens_of (i :: taken) = stored_tokens i + tokens_of taken)
        by reflexivity.
      rewrite Htok. repeat split.
      * f_equal.
        -- rewrite flat_map_app. simpl. now rewrite <- app_assoc.
        -- change (recent :: context_sources ctx)
             with ([recent] ++ context_sources ctx).
           now rewrite app_assoc, <- repeat_cons.
        -- lia.
      * intros o rest' Hr. specialize (Hstop o rest' Hr).
        cbn [current_tokens] in Hstop. lia.
      * intros _. cbn [current_tokens] in Hb. specialize (Hb Hfit). lia.
Qed.

(** Shape of the result with the conditions under which each part is there. *)
Lemma context_structure_gates st current_message max_tokens :
  let budget := effective_budget max_tokens in
  exists older recents relevants summaries,
    short_term_memory st = older ++ recents
    /\ sublist relevants
         (search_relevant_conversations (memory_file st) current_message
            (Some 3))
    /\ Forall
         (fun c =>
            List.existsb (same_timestamp c) (short_term_memory st) = false)
         relevants
    /\ get_intelligent_context st current_message max_tokens
       = (flat_map summary_messages summaries
          ++ flat_map recent_messages recents
          ++ flat_map relevant_messages relevants,
          List.map (fun _ => summary) summaries
          ++ repeat recent (length recents)
          ++ List.map (fun c => relevant (relevance_score c)) relevants)
    /\ (forall pre o, older = pre ++ [o] ->
          budget < tokens_of recents + stored_tokens o)
    /\ (0 <= budget -> tokens_of recents <= budget)
    /\ (relevants <> [] -> 200 < budget - tokens_of recents)
    /\ (summaries = []
        \/ summaries
           = [_get_relevant_summaries (conversation_summaries st)
                current_message]
           /\ _get_relevant_summaries (conversation_summaries st)
                current_message <> []
           /\ 100 < budget - tokens_of recents
           /\ tokens_of recents + tokens_of relevants
              + summary_tokens_of summaries <= budget).
Proof.
  intros budget. unfold get_intelligent_context. cbv zeta.
  change (match max_tokens with
          | Some n => n | None => MAX_CONTEXT_TOKENS end)
    with budget.
  destruct (recency_loop_stop budget (rev (short_term_memory st))
              {| context_messages := []; context_sources := [];
                 current_tokens := 0 |})
    as (taken & rest & Hw & Hloop & Hstop & Hcost).
  cbn [current_tokens] in Hcost.
  rewrite Hloop. simpl context_messages. simpl context_sources.
  simpl current_tokens. rewrite !app_nil_r.
  assert (Hwin : short_term_memory st = rev rest ++ rev taken).
  { rewrite <- rev_app_distr, <- Hw. now rewrite rev_involutive. }
  set (ctx1 := {| context_messages := flat_map recent_messages (rev taken);
                  context_sources := repeat recent (length taken);
                  current_tokens := 0 + tokens_of taken |}).
  set (ctx2 := if 200 <? budget - (0 + tokens_of taken) then _ else ctx1).
  assert (H2 : exists relevants,
             sublist relevants
               (search_relevant_conversations (memory_file st)
                  current_message (Some 3))
             /\ Forall
                  (fun c =>
                     List.existsb (same_timestamp c) (short_term_memory st)
                     = false) relevants
             /\ context_messages ctx2
                = context_messages ctx1 ++ flat_map relevant_messages relevants
             /\ context_sources ctx2
                = context_sources ctx1
                  ++ List.map (fun c => relevant (relevance_score c)) relevants
             /\ current_tokens ctx2 = current_tokens ctx1 + tokens_of relevants
             /\ (relevants <> [] -> 200 < budget - tokens_of taken)).
  { unfold ctx2.
    destruct (Z.ltb_spec 200 (budget - (0 + tokens_of taken))) as [Hgt|Hle].
    - destruct (relevance_loop_spec budget (short_term_memory st)
                  (search_relevant_conversations (memory_file st)
                     current_message (Some 3)) ctx1)
        as (relevants & H1 & H2 & H3 & H4 & H5 & _).
      exists relevants. repeat split; auto; try (intros _; lia).
    - exists []. unfold tokens_of; simpl. rewrite !app_nil_r.
      repeat split; auto; try lia; try apply sublist_nil_l; congruence. }
  destruct H2 as (relevants & Hsub & Hnd & Hm2 & Hs2 & Ht2 & Hgate).
  simpl in Hm2, Hs2, Ht2.
  exists (rev rest), (rev taken), relevants.
  rewrite tokens_of_rev.
  assert (Hstop' : forall pre o, rev rest = pre ++ [o] ->
                     budget < tokens_of taken + stored_tokens o).
  { intros pre o Hr. apply (f_equal (@rev _)) in Hr.
    rewrite rev_involutive, rev_app_distr in Hr. simpl in Hr.
    specialize (Hstop o (rev pre) Hr). simpl in Hstop. lia. }
  assert (Hplain :
            (context_messages ctx2, context_sources ctx2)
            = (flat_map summary_messages []
               ++ flat_map recent_messages (rev taken)
               ++ flat_map relevant_messages relevants,
               List.map (fun _ => summary) (@nil str)
               ++ repeat recent (length (rev taken))
               ++ List.map (fun c => relevant (relevance_score c)) relevants)).
  { simpl. now rewrite Hm2, Hs2, length_rev. }
  destruct (conversation_summaries st) as [|s0 ss] eqn:Hsum.
  { exists []. repeat split; auto. }
  destruct (Z.ltb_spec 100 (budget - (0 + tokens_of taken))) as [H100|_];
    [|exists []; repeat split; auto].
  destruct (_get_relevant_summaries (s0 :: ss) current_message)
    as [|ch text] eqn:Htext;
    [exists []; repeat split; auto|].
  destruct (Z.leb_spec
              (current_tokens ctx2 + _estimate_tokens (ch :: text)) budget)
    as [Hfit|Hover];
    [|exists []; repeat split; auto].
  exists [ch :: text]. repeat split; auto.
  - simpl. now rewrite Hm2, Hs2, length_rev.
  - right. repeat split; auto; try congruence; try lia.
    unfold summary_tokens_of. simpl. lia.
Qed.

Lemma search_top3_length memory_file query :
  (length (search_relevant_conversations memory_file query (Some 3%Z)) <= 3)%nat.
Proof.
  rewrite search_unfold. unfold effective_limit.
  rewrite slice_to_nonneg by lia. rewrite length_firstn. lia.
Qed.

Lemma str_in_In t l : str_in t l = true <-> In t l.
Proof.
  unfold str_in. rewrite existsb_exists. split.
  - intros (x & Hx & E). apply str_eqb_eq in E. now subst.
  - intros H. exists t. split; [exact H | apply str_eqb_refl].
Qed.

(** A non-empty result of [_get_relevant_summaries] comes from a summary that
    shares a topic with the terms of the query. *)
Lemma relevant_summaries_share_topic summaries query :
  _get_relevant_summaries summaries query <> [] ->
  exists s t,
    In s summaries
    /\ In t (_extract_terms (lower query))
    /\ In t (main_topics s).
Proof.
  unfold _get_relevant_summaries.
  destruct summaries as [|s0 ss]; [congruence|].
  set (matching :=
         List.filter
           (fun s =>
              List.existsb (fun t => str_in t (main_topics s))
                (_extract_terms (lower query)))
           (s0 :: ss)).
  destruct matching as [|s rest] eqn:E; [simpl; congruence|].
  intros _.
  assert (Hs : In s matching) by (rewrite E; now left).
  apply filter_In in Hs as [Hs Hmatch].
  apply existsb_exists in Hmatch as (t & Ht & Hin).
  exists s, t. repeat split; auto. now apply str_in_In.
Qed.

(** X9. The recency part is the longest run of the newest window records
    whose costs fit the budget together: the result holds a suffix of the
    window, and the record just before that suffix, if any, does not fit on
    top of it (older records are then dropped even if they would fit). *)
Theorem X9_recency_is_the_newest_run_that_fits
    (st : State) (current_message : str) (max_tokens : option Z) :
  exists older recents relevants summaries,
    short_term_memory st = older ++ recents
    /\ get_intelligent_context st current_message max_tokens
       = (flat_map summary_messages summaries
          ++ flat_map recent_messages recents
          ++ flat_map relevant_messages relevants,
          List.map (fun _ => summary) summaries
          ++ repeat recent (length recents)
          ++ List.map (fun c => relevant (relevance_score c)) relevants)
    /\ (0 <= effective_budget max_tokens ->
        tokens_of recents <= effective_budget max_tokens)
    /\ (forall pre o, older = pre ++ [o] ->
          effective_budget max_tokens < tokens_of recents + stored_tokens o).
Proof.
  destruct (context_structure_gates st current_message max_tokens)
    as (older & recents & relevants & summaries
        & Hw & _ & _ & Hres & Hstop & Hcost & _).
  exists older, recents, relevants, summaries. repeat split; auto.
Qed.

(** X10. When no window record has a negative cost and the costs of the
    whole window fit the budget, every window record is in the result, in
    window order. *)
Theorem X10_window_that_fits_is_included_whole
    (st : State) (current_message : str) (max_tokens : option Z) :
  Forall (fun c => 0 <= stored_tokens c) (short_term_memory st) ->
  tokens_of (short_term_memory st) <= effective_budget max_tokens ->
  exists relevants summaries,
    get_intelligent_context st current_message max_tokens
    = (flat_map summary_messages summaries
       ++ flat_map recent_messages (short_term_memory st)
       ++ flat_map relevant_messages relevants,
       List.map (fun _ => summary) summaries
       ++ repeat recent (length (short_term_memory st))
       ++ List.map (fun c => relevant (relevance_score c)) relevants).
Proof.
  intros Hpos Hfit.
  destruct (context_structure_gates st current_message max_tokens)
    as (older & recents & relevants & summaries
        & Hw & _ & _ & Hres & Hstop & _).
  exists relevants, summaries.
  destruct older as [|o0 older0] using rev_ind.
  - simpl in Hw. now rewrite Hw.
  - exfalso. clear IHolder0.
    specialize (Hstop older0 o0 eq_refl).
    rewrite Hw, !tokens_of_app in Hfit.
    rewrite Hw, !Forall_app in Hpos. destruct Hpos as [[Hpre _] _].
    assert (Hnn : 0 <= tokens_of older0).
    { clear -Hpre. unfold tokens_of.
      induction Hpre as [|c l Hc _ IH]; simpl; lia. }
    unfold tokens_of at 2 in Hfit. simpl in Hfit. lia.
Qed.

(** X11. What the result may hold besides the window records: at most three
    search results, none with the timestamp of a window record, and only
    when more than 200 tokens are left after the recency part; at most one
    summary message, with a non-empty text, and only when more than 100
    tokens are left after the recency part. *)
Theorem X11_relevance_and_summary_gates
    (st : State) (current_message : str) (max_tokens : option Z) :
  exists older recents relevants summaries,
    short_term_memory st = older ++ recents
    /\ get_intelligent_context st current_message max_tokens
       = (flat_map summary_messages summaries
          ++ flat_map recent_messages recents
          ++ flat_map relevant_messages relevants,
          List.map (fun _ => summary) summaries
          ++ repeat recent (length recents)
          ++ List.map (fun c => relevant (relevance_score c)) relevants)
    /\ (length relevants <= 3)%nat
    /\ Forall
         (fun c =>
            List.existsb (same_timestamp c) (short_term_memory st) = false)
         relevants
    /\ (relevants <> [] ->
        200 < effective_budget max_tokens - tokens_of recents)
    /\ (length summaries <= 1)%nat
    /\ Forall (fun text => text <> []) summaries
    /\ (summaries <> [] ->
        100 < effective_budget max_tokens - tokens_of recents).
Proof.
  destruct (context_structure_gates st current_message max_tokens)
    as (older & recents & relevants & summaries
        & Hw & Hsub & Hnd & Hres & _ & _ & Hgate & Hsum).
  exists older, recents, relevants, summaries.
  split; [exact Hw|]. split; [exact Hres|]. split.
  { apply sublist_length in Hsub.
    pose proof (search_top3_length (memory_file st) current_message). lia. }
  split; [exact Hnd|]. split; [exact Hgate|].
  destruct Hsum as [->|(-> & Hne & H100 & _)].
  - split; [simpl; lia|]. split; [constructor | congruence].
  - split; [simpl; lia|]. split; [|intros _; exact H100].
    constructor; [exact Hne | constructor].
Qed.

(** Against an empty window no search result is a duplicate, so the second
    step takes every result as long as the costs fit. *)
Lemma relevance_loop_takes_all (B : Z) (found : list Interaction)
    (ctx : Context) :
  Forall (fun c => 0 <= stored_tokens c) found ->
  current_tokens ctx + tokens_of found <= B ->
  fold_left (relevance_step B []) found ctx
  = {| context_messages :=
         context_messages ctx ++ flat_map relevant_messages found;
       context_sources :=
         context_sources ctx
         ++ List.map (fun c => relevant (relevance_score c)) found;
       current_tokens := current_tokens ctx + tokens_of found |}.
Proof.
  intros Hpos. revert ctx.
  induction Hpos as [|c found Hc Hpos IH]; intros ctx Hfit.
  - destruct ctx; unfold tokens_of; simpl.
    now rewrite !app_nil_r, Z.add_0_r.
  - assert (Hrest : 0 <= tokens_of found).
    { clear -Hpos. unfold tokens_of.
      induction Hpos; simpl; [lia|]. lia. }
    change (tokens_of (c :: found))
      with (stored_tokens c + tokens_of found) in *.
    cbn [fold_left]. unfold relevance_step at 2. cbn [List.existsb negb].
    destruct (Z.leb_spec (current_tokens ctx + stored_tokens c) B); [|lia].
    rewrite IH by (cbn [current_tokens]; lia).
    cbn [context_messages context_sources current_tokens flat_map List.map].
    f_equal.
    + now rewrite <- app_assoc.
    + now rewrite <- app_assoc.
    + lia.
Qed.

(** A record of the log with a positive score is among the top three search
    results when at most three records have a positive score. *)
Lemma search_finds_positive_record memory_file query c :
  In c (read_json memory_file) ->
  (0 < query_score query c)%Q ->
  (length (positive_in_corpus_order query (read_json memory_file)) <= 3)%nat ->
  In (set_relevance_score c (query_score query c))
    (search_relevant_conversations memory_file query (Some 3)).
Proof.
  intros Hin Hpos Hlen.
  rewrite search_unfold. change (effective_limit (Some 3)) with 3.
  rewrite slice_to_nonneg by lia.
  pose proof (sort_desc_perm by_relevance
                (positive_in_corpus_order query (read_json memory_file)))
    as Hperm.
  rewrite firstn_all2
    by (rewrite (Permutation_length Hperm); simpl; lia).
  eapply Permutation_in; [symmetry; exact Hperm|].
  unfold positive_in_corpus_order.
  apply (in_map (fun c => set_relevance_score c (query_score query c))).
  apply filter_In. split; [exact Hin|]. now apply Qgtb_lt.
Qed.

(** X12. [clear_short_term] empties the window and leaves the log as it
    was, so the records of the log, those that were in the window too, come
    back as search results: with a budget over 200 that the top three search
    results fit (none of a negative cost), the result after the clear holds
    no recency unit and every one of these search results, in the order of
    the search, after at most one summary message.  When at most three
    records of the log have a positive score for the message, each of them
    is among these results. *)
Theorem X12_clear_keeps_the_log_searchable
    (st : State) (current_message : str) (max_tokens : option Z) :
  200 < effective_budget max_tokens ->
  Forall (fun c => 0 <= stored_tokens c)
    (search_relevant_conversations (memory_file st) current_message
       (Some 3)) ->
  tokens_of
    (search_relevant_conversations (memory_file st) current_message
       (Some 3))
  <= effective_budget max_tokens ->
  short_term_memory (clear_short_term st) = []
  /\ memory_file (clear_short_term st) = memory_file st
  /\ (exists summaries,
        (length summaries <= 1)%nat
        /\ get_intelligent_context (clear_short_term st) current_message
             max_tokens
           = (flat_map summary_messages summaries
              ++ flat_map relevant_messages
                   (search_relevant_conversations (memory_file st)
                      current_message (Some 3)),
              List.map (fun _ => summary) summaries
              ++ List.map (fun c => relevant (relevance_score c))
                   (search_relevant_conversations (memory_file st)
                      current_message (Some 3))))
  /\ (forall c,
        In c (log_of st) ->
        (0 < query_score current_message c)%Q ->
        (length (positive_in_corpus_order current_message (log_of st))
         <= 3)%nat ->
        In (set_relevance_score c (query_score current_message c))
          (search_relevant_conversations (memory_file st) current_message
             (Some 3))).
Proof.
  intros Hgate Hpos Hfit.
  split; [reflexivity|]. split; [reflexivity|].
  split; [|intros c; apply search_finds_positive_record].
  unfold get_intelligent_context. cbv zeta.
  change (match max_tokens with
          | Some n => n | None => MAX_CONTEXT_TOKENS end)
    with (effective_budget max_tokens).
  set (B := effective_budget max_tokens) in *.
  change (short_term_memory (clear_short_term st)) with (@nil Interaction).
  change (memory_file (clear_short_term st)) with (memory_file st).
  change (conversation_summaries (clear_short_term st))
    with (conversation_summaries st).
  set (found := search_relevant_conversations (memory_file st)
                  current_message (Some 3)) in *.
  cbn [rev recency_loop current_tokens].
  rewrite Z.sub_0_r.
  destruct (Z.ltb_spec 200 B) as [_|]; [|lia].
  rewrite (relevance_loop_takes_all B found) by (cbn [current_tokens]; auto).
  cbn [context_messages context_sources current_tokens app].
  destruct (conversation_summaries st) as [|s0 ss];
    [exists []; split; [simpl; lia | reflexivity]|].
  destruct (100 <? B); [|exists []; split; [simpl; lia | reflexivity]].
  destruct (_get_relevant_summaries (s0 :: ss) current_message)
    as [|ch text]; [exists []; split; [simpl; lia | reflexivity]|].
  destruct (_ <=? B); [|exists []; split; [simpl; lia | reflexivity]].
  exists [ch :: text]. split; [simpl; lia | reflexivity].
Qed.

(** X13. A summary message is in the result only when a summary held in
    memory lists, among its [main_topics], a term extracted from the
    lowercased current message. *)
Theorem X13_summary_needs_a_shared_topic
    (st : State) (current_message : str) (max_tokens : option Z) :
  In summary (snd (get_intelligent_context st current_message max_tokens)) ->
  exists s t,
    In s (conversation_summaries st)
    /\ In t (_extract_terms (lower current_message))
    /\ In t (main_topics s).
Proof.
  destruct (context_structure_gates st current_message max_tokens)
    as (older & recents & relevants & summaries
        & _ & _ & _ & Hres & _ & _ & _ & Hsum).
  rewrite Hres. cbn [snd]. intros Hin.
  destruct Hsum as [->|(_ & Hne & _)].
  - exfalso. simpl in Hin. apply in_app_or in Hin as [Hin|Hin].
    + apply repeat_spec in Hin. discriminate.
    + apply in_map_iff in Hin as (c & Hc & _). discriminate.
  - now apply relevant_summaries_share_topic.
Qed.



End ComposerMore.

(** ** More on scoring and search *)

Section SearchMore.
Context {rt : PyRuntime}.

Lemma score_without_query_terms text :
  _calculate_relevance_score [] text = 0%Q.
Proof.
  unfold _calculate_relevance_score. now destruct (_extract_terms text).
Qed.

(** X14. A query from which no term is extracted (only stop words, words of
    at most two characters, punctuation) finds nothing, whatever the log
    holds. *)
Theorem X14_query_without_terms_finds_nothing
    (memory_file : option (list Interaction)) (query : str)
    (limit : option Z) :
  _extract_terms (lower query) = [] ->
  search_relevant_conversations memory_file query limit = [].
Proof.
  intros Hq. rewrite search_unfold.
  assert (Hpos : positive_in_corpus_order query (read_json memory_file) = []).
  { unfold positive_in_corpus_order, query_score. rewrite Hq.
    induction (read_json memory_file) as [|c l IH]; [reflexivity|].
    simpl. rewrite score_without_query_terms. exact IH. }
  rewrite Hpos. unfold slice_to. simpl.
  destruct (_ <? 0); apply firstn_nil.
Qed.

Lemma counter_get_Counter t terms :
  counter_get t (Counter terms)
  = if (0 <? occurrences t terms)%nat then Some (occurrences t terms)
    else None.
Proof.
  destruct (Nat.ltb_spec 0 (occurrences t terms)) as [Hpos|Hz].
  - apply counter_get_in; [apply Counter_keys_nodup|].
    apply Counter_entries. split; [now apply occurrences_pos | reflexivity].
  - destruct (counter_get t (Counter terms)) as [n|] eqn:E; [|reflexivity].
    apply counter_in_get, Counter_entries in E as [Hin _].
    apply occurrences_pos in Hin. lia.
Qed.

(** The accumulation of the score over the query terms. *)
Lemma score_fold_positive (text_terms query_terms : list str) (acc : Q) :
  (forall n m : Z, (0 < n)%Z -> (0 < m)%Z -> (0 < float_div n m)%Q) ->
  (forall x y, 0 <= x -> 0 < y -> 0 < float_add x y)%Q ->
  (0 <= acc)%Q ->
  let score :=
    fold_left
      (fun score term =>
         match counter_get term (Counter text_terms) with
         | Some n =>
             float_add score
               (float_div (Z.of_nat n) (Z.of_nat (length text_terms)))
         | None => score
         end)
      query_terms acc in
  (0 <= score)%Q
  /\ ((0 < score)%Q
      <-> (0 < acc)%Q \/ exists t, In t query_terms /\ In t text_terms).
Proof.
  intros Hdiv Hadd. revert acc.
  induction query_terms as [|q query_terms IH]; intros acc Hacc; simpl.
  - split; [exact Hacc|]. split; [now left|].
    intros [H|(t & [] & _)]. exact H.
  - rewrite counter_get_Counter.
    destruct (Nat.ltb_spec 0 (occurrences q text_terms)) as [Hpos|Hz].
    + assert (Hin : In q text_terms) by now apply occurrences_pos.
      assert (Hlen : (0 < length text_terms)%nat)
        by (destruct text_terms; [destruct Hin | simpl; lia]).
      assert (Hnew : (0 < float_add acc
                            (float_div (Z.of_nat (occurrences q text_terms))
                               (Z.of_nat (length text_terms))))%Q).
      { apply Hadd; [exact Hacc|]. apply Hdiv; lia. }
      destruct (IH _ (Qlt_le_weak _ _ Hnew)) as [Hnn Hiff].
      split; [exact Hnn|]. rewrite Hiff. split; [|tauto].
      intros _. right. exists q. split; [now left | exact Hin].
    + destruct (IH acc Hacc) as [Hnn Hiff].
      split; [exact Hnn|]. rewrite Hiff. split.
      * intros [H|(t & Ht & Hin)]; [now left|].
        right. exists t. split; [now right | exact Hin].
      * intros [H|(t & [<-|Ht] & Hin)]; [now left | |].
        -- apply occurrences_pos in Hin. lia.
        -- right. exists t. tauto.
Qed.

Lemma score_positive_iff query_terms text :
  (forall n m : Z, (0 < n)%Z -> (0 < m)%Z -> (0 < float_div n m)%Q) ->
  (forall x y, 0 <= x -> 0 < y -> 0 < float_add x y)%Q ->
  (0 < _calculate_relevance_score query_terms text)%Q
  <-> exists t, In t query_terms /\ In t (_extract_terms text).
Proof.
  intros Hdiv Hadd. unfold _calculate_relevance_score.
  destruct (_extract_terms text) as [|t0 terms] eqn:Et.
  - split; [intros H; now apply Qlt_irrefl in H|].
    intros (t & _ & []).
  - destruct query_terms as [|q0 qs].
    + split; [intros H; now apply Qlt_irrefl in H|].
      intros (t & [] & _).
    + destruct (score_fold_positive (t0 :: terms) (q0 :: qs) 0 Hdiv Hadd
                  (Qle_refl 0)) as [_ Hiff].
      cbv zeta in Hiff. rewrite Hiff. split; [|tauto].
      intros [H|H]; [now apply Qlt_irrefl in H | exact H].
Qed.

(** X15. With float division and addition that keep positive values
    positive, a record of the log has a positive score exactly when a term
    of the query is among the terms of its text, and every record the search
    returns is such a record carrying its score. *)
Theorem X15_found_iff_a_query_term_occurs
    (memory_file : option (list Interaction)) (query : str)
    (limit : option Z) :
  (forall n m : Z, (0 < n)%Z -> (0 < m)%Z -> (0 < float_div n m)%Q) ->
  (forall x y, 0 <= x -> 0 < y -> 0 < float_add x y)%Q ->
  (forall c,
      (0 < query_score query c)%Q
      <-> exists t,
            In t (_extract_terms (lower query))
            /\ In t (_extract_terms (conv_text c)))
  /\ (forall r,
        In r (search_relevant_conversations memory_file query limit) ->
        exists c t,
          In c (read_json memory_file)
          /\ r = set_relevance_score c (query_score query c)
          /\ In t (_extract_terms (lower query))
          /\ In t (_extract_terms (conv_text c))).
Proof.
  intros Hdiv Hadd.
  assert (Hiff : forall c,
             (0 < query_score query c)%Q
             <-> exists t,
                   In t (_extract_terms (lower query))
                   /\ In t (_extract_terms (conv_text c))).
  { intros c. unfold query_score. now apply score_positive_iff. }
  split; [exact Hiff|].
  intros r Hr. apply search_results_in_corpus in Hr.
  unfold positive_in_corpus_order in Hr.
  apply in_map_iff in Hr as (c & <- & Hc).
  apply filter_In in Hc as [Hc Hpos]. apply Qgtb_lt in Hpos.
  apply Hiff in Hpos as (t & Ht & Ht').
  exists c, t. repeat split; auto.
Qed.

End SearchMore.

(** ** History display and statistics *)

Lemma entry_heads_app out1 out2 :
  entry_heads (out1 ++ out2) = entry_heads out1 ++ entry_heads out2.
Proof.
  induction out1 as [|p out1 IH]; [reflexivity|].
  destruct p; simpl; now rewrite IH.
Qed.

Lemma history_entries_spec i recent total :
  entry_heads (fst (history_entries i recent total)) = numbered_from i recent
  /\ snd (history_entries i recent total)
     = total + sum_Z (List.map tokens_or_zero recent)
  /\ length (fst (history_entries i recent total)) = (4 * length recent)%nat.
Proof.
  revert i total; induction recent as [|c recent IH]; intros i total.
  - simpl. repeat split; lia.
  - cbn [history_entries].
    destruct (IH (S i) (total + tokens_or_zero c)) as (Hh & Ht & Hl).
    fold (tokens_or_zero c).
    destruct (history_entries (S i) recent (total + tokens_or_zero c))
      as [printed t] eqn:E.
    cbn [fst snd] in *. repeat split.
    + cbn [entry_heads]. rewrite Hh. reflexivity.
    + rewrite Ht. simpl. lia.
    + cbn [length]. rewrite Hl. simpl. lia.
Qed.

Lemma show_recent_history_shape st limit :
  short_term_memory st <> [] ->
  let recent := slice_from (short_term_memory st) (- limit) in
  exists printed,
    show_recent_history st limit
    = Header (Z.min limit (Z.of_nat (length (short_term_memory st))))
        :: printed
        ++ [TotalLine (sum_Z (List.map tokens_or_zero recent)); Footer]
    /\ entry_heads printed = numbered_from 1 recent
    /\ length printed = (4 * length recent)%nat.
Proof.
  intros Hne recent. unfold show_recent_history.
  destruct (short_term_memory st) as [|c w] eqn:Hw; [congruence|].
  cbv zeta. fold recent.
  destruct (history_entries_spec 1 recent 0) as (Hh & Ht & Hl).
  destruct (history_entries 1 recent 0) as [printed total].
  cbn [fst snd] in *. exists printed. rewrite Ht. simpl Z.add.
  repeat split; auto.
Qed.

(** X16. [show_recent_history(limit)] with [limit >= 1] on a non-empty
    window prints the last [min(limit, len)] window records, numbered from 1
    in window order, after a header that announces that number, and closes
    with the sum of their token counts. *)
Theorem X16_history_shows_the_last_records (st : State) (limit : Z) :
  short_term_memory st <> [] -> 1 <= limit ->
  let n := Nat.min (Z.to_nat limit) (length (short_term_memory st)) in
  let shown := last_n n (short_term_memory st) in
  exists printed,
    show_recent_history st limit
    = Header (Z.of_nat n) :: printed
      ++ [TotalLine (sum_Z (List.map tokens_or_zero shown)); Footer]
    /\ entry_heads printed = numbered_from 1 shown
    /\ length (entry_heads printed) = n.
Proof.
  intros Hne Hlim n shown.
  destruct (show_recent_history_shape st limit Hne) as (printed & Hs & Hh & _).
  cbv zeta in Hs, Hh.
  rewrite slice_from_neg_last_n in Hs, Hh by lia.
  fold n in Hs, Hh. fold shown in Hs, Hh.
  exists printed. split; [|split].
  - rewrite Hs. do 2 f_equal. unfold n. lia.
  - exact Hh.
  - rewrite Hh. unfold numbered_from.
    rewrite length_map, length_combine, length_seq, Nat.min_id.
    unfold shown, last_n. rewrite length_skipn. unfold n. lia.
Qed.

(** X17. [show_recent_history(0)], which the command [history 0] calls,
    announces 0 interactions and prints the whole window: [window[-0:]] is
    the whole list. *)
Theorem X17_history_zero_prints_everything (st : State) :
  short_term_memory st <> [] ->
  exists printed,
    show_recent_history st 0
    = Header 0 :: printed
      ++ [TotalLine (sum_Z (List.map tokens_or_zero (short_term_memory st)));
          Footer]
    /\ entry_heads printed = numbered_from 1 (short_term_memory st)
    /\ length (entry_heads printed) = length (short_term_memory st).
Proof.
  intros Hne.
  destruct (show_recent_history_shape st 0 Hne) as (printed & Hs & Hh & _).
  cbv zeta in Hs, Hh.
  change (slice_from (short_term_memory st) (- 0))
    with (short_term_memory st) in Hs, Hh.
  exists printed. split; [|split].
  - rewrite Hs. do 2 f_equal.
    destruct (short_term_memory st); [congruence | reflexivity].
  - exact Hh.
  - rewrite Hh. unfold numbered_from.
    now rewrite length_map, length_combine, length_seq, Nat.min_id.
Qed.

Section StatsProofs.
Context {rt : PyRuntime}.



End StatsProofs.

(** ** More on term extraction *)

Section TermsMore.
Context {rt : PyRuntime}.

Lemma split_from_at_space cur a c b :
  isspace c = true ->
  split_from cur (a ++ c :: b) = split_from cur a ++ split_from [] b.
Proof.
  intros Hc. revert cur. induction a as [|x a IH]; intros cur.
  - simpl. rewrite Hc. now destruct cur.
  - simpl. destruct (isspace x).
    + destruct cur; [apply IH|]. simpl. f_equal. apply IH.
    + apply IH.
Qed.

Lemma extract_terms_at_space a b :
  isspace SP = true ->
  _extract_terms (a ++ [SP] ++ b) = _extract_terms a ++ _extract_terms b.
Proof.
  intros Hsp. unfold _extract_terms, re_sub_nonword, split. cbv zeta.
  rewrite map_app. cbn [List.map app].
  assert (Hkeep : (if is_word SP || isspace SP then SP else SP) = SP)
    by now destruct (is_word SP || isspace SP).
  rewrite Hkeep, split_from_at_space by exact Hsp.
  apply filter_app.
Qed.

(** X19. With the space being whitespace, the terms of two texts joined by
    a space are the terms of the first followed by the terms of the second:
    the text scored for a record, [user_message + " " + assistant_response],
    gives the terms of the user message and then those of the response. *)
Theorem X19_terms_of_texts_joined_by_a_space (a b : str) :
  isspace SP = true ->
  _extract_terms (a ++ [SP] ++ b) = _extract_terms a ++ _extract_terms b.
Proof. apply extract_terms_at_space. Qed.

(** X20. With the space being whitespace, an extracted term is made of word
    characters only (alphanumeric or underscore): no whitespace and no
    punctuation is left in it, and it has at least three characters. *)
Theorem X20_terms_are_made_of_word_characters (text : str) :
  isspace SP = true ->
  Forall
    (fun term => (3 <= length term)%nat
                 /\ Forall (fun c => is_word c = true /\ isspace c = false)
                      term)
    (_extract_terms text).
Proof.
  intros Hsp.
  assert (Hterms : Forall is_term (_extract_terms text)).
  { apply Forall_filter_keep, split_from_terms. constructor. }
  assert (Hchars : Forall (Forall kept_char) (_extract_terms text)).
  { apply Forall_filter_keep, split_from_chars;
      [constructor | now apply re_sub_chars]. }
  rewrite Forall_forall in *. intros term Hterm. split.
  - unfold _extract_terms in Hterm. apply filter_In in Hterm as [_ H].
    apply andb_true_iff in H as [H _]. apply Nat.ltb_lt in H. lia.
  - destruct (Hterms term Hterm) as [_ Hns].
    specialize (Hchars term Hterm).
    rewrite Forall_forall in *. intros c Hc.
    specialize (Hns c Hc). specialize (Hchars c Hc).
    unfold nonspace in Hns. unfold kept_char in Hchars.
    rewrite Hns, orb_false_r in Hchars. now split.
Qed.

End TermsMore.

(** ** The two token estimates *)

Lemma client_estimate_pair (c : Interaction) :
  client_estimate_tokens (recent_messages c)
  = _estimate_tokens (user_message c ++ assistant_response c).
Proof.
  unfold client_estimate_tokens, _estimate_tokens, recent_messages, sum_Z.
  simpl. rewrite length_app. f_equal. lia.
Qed.

Lemma chars_of_recent_messages (l : list Interaction) :
  sum_Z
    (List.map (fun msg => Z.of_nat (length (content msg)))
       (flat_map recent_messages l))
  = sum_Z
      (List.map
         (fun c =>
            Z.of_nat (length (user_message c ++ assistant_response c))) l).
Proof.
  unfold sum_Z. induction l as [|c l IH]; [reflexivity|].
  simpl. rewrite IH, length_app. lia.
Qed.

Lemma floor_sum_bounds (lens : list Z) :
  Forall (fun n => 0 <= n) lens ->
  sum_Z (List.map (fun n => n / 4) lens) <= sum_Z lens / 4
  /\ 4 * (sum_Z lens / 4)
     <= 4 * sum_Z (List.map (fun n => n / 4) lens)
        + 3 * Z.of_nat (length lens).
Proof.
  intros Hpos.
  assert (H : 4 * sum_Z (List.map (fun n => n / 4) lens) <= sum_Z lens
              /\ sum_Z lens
                 <= 4 * sum_Z (List.map (fun n => n / 4) lens)
                    + 3 * Z.of_nat (length lens)).
  { unfold sum_Z. induction Hpos as [|n lens Hn _ IH]; [simpl; lia|].
    cbn [List.map fold_right length].
    pose proof (Z.div_mod n 4 ltac:(lia)) as Hdm.
    pose proof (Z.mod_pos_bound n 4 ltac:(lia)) as Hm.
    lia. }
  destruct H as [Hlo Hhi].
  pose proof (Z.div_mod (sum_Z lens) 4 ltac:(lia)) as Hdm.
  pose proof (Z.mod_pos_bound (sum_Z lens) 4 ltac:(lia)) as Hm.
  split; [|lia].
  apply Z.div_le_lower_bound; lia.
Qed.

Section EstimateProofs.
Context {rt : PyRuntime}.

(** X21. For interactions recorded by [add_interaction], the cost the
    composer counts (the sum of their [tokens_used]) is never more than the
    client's estimate of the same messages (all characters // 4), and the
    client's estimate exceeds it by less than one token per interaction. *)
Theorem X21_composer_cost_against_client_estimate (calls : list Call) :
  let recorded := List.map interaction_of calls in
  tokens_of recorded
  <= client_estimate_tokens (flat_map recent_messages recorded)
  /\ 4 * client_estimate_tokens (flat_map recent_messages recorded)
     <= 4 * tokens_of recorded + 3 * Z.of_nat (length calls).
Proof.
  intros recorded. unfold client_estimate_tokens.
  rewrite chars_of_recent_messages.
  set (lens :=
         List.map
           (fun c =>
              Z.of_nat (length (user_message c ++ assistant_response c)))
           recorded).
  assert (Htok : tokens_of recorded = sum_Z (List.map (fun n => n / 4) lens)).
  { unfold tokens_of, lens, recorded. rewrite !map_map. reflexivity. }
  assert (Hlen : length lens = length calls)
    by (unfold lens, recorded; now rewrite !length_map).
  assert (Hpos : Forall (fun n => 0 <= n) lens).
  { unfold lens. rewrite Forall_map, Forall_forall. intros c _. lia. }
  destruct (floor_sum_bounds lens Hpos) as [Hlo Hhi].
  rewrite Htok, <- Hlen. split; assumption.
Qed.

End EstimateProofs.

(** * The properties at concrete inputs

    The witnesses of the theorems above and the inputs on which the source
    departs from a statement, computed with [latin1_runtime]. *)

#[local] Existing Instance latin1_runtime.

Lemma C4_search_sorted_stable_bounded_witness :
  0 <= effective_limit (Some 2)
  /\ Z.of_nat
       (length
          (search_relevant_conversations (Some python_corpus) (py "Python")
             (Some 2))) <= 2.
Proof.
  split; [vm_compute; discriminate|].
  apply (C4_search_sorted_stable_bounded (Some python_corpus) (py "Python")
           (Some 2)).
  vm_compute; discriminate.
Defined.

(** C4 as stated fails for a negative limit: [scored_conversations[:-1]]
    drops only the last of the three records with a positive score, so two
    records are returned for the limit -1. *)
Lemma C4_negative_limit_counterexample :
  length
    (search_relevant_conversations (Some python_corpus) (py "Python")
       (Some (-1))) = 2%nat
  /\ ~ (Z.of_nat
          (length
             (search_relevant_conversations (Some python_corpus) (py "Python")
                (Some (-1)))) <= effective_limit (Some (-1))).
Proof. split; [reflexivity | vm_compute; intros H; now apply H]. Qed.

(** C2. The returned units can cost more than the budget.  The source checks
    the summary with [len(summary_text) // 4] and returns a system message
    that is 38 characters longer.  With an empty window, two summaries about
    the message and the budget 101, the text counts 93 and is admitted, and
    the one message returned costs 102.  With the default budget of 6000, a
    window of 5700 and three search results of 278, the text of
    [python_summary] counts 16 and is admitted at 5994, and the returned
    units cost 6004. *)
Theorem C2_summary_prefix_exceeds_budget :
  let text :=
    summary_text functions_summary_w10 ++ [SP]
    ++ summary_text functions_summary_w11 in
  let found :=
    search_relevant_conversations (memory_file long_session_state)
      (py "python") (Some 3) in
  (get_intelligent_context functions_state (py "get_intelligent_context")
     (Some 101)
   = (summary_messages text, [summary])
   /\ _estimate_tokens text = 93
   /\ returned_summary_tokens [text] = 102
   /\ ~ (returned_summary_tokens [text] + tokens_of [] + tokens_of []
         <= effective_budget (Some 101)))
  /\ (get_intelligent_context long_session_state (py "python") None
      = (summary_messages (summary_text python_summary)
         ++ flat_map recent_messages report_window
         ++ flat_map relevant_messages found,
         [summary] ++ repeat recent 3
         ++ List.map (fun c => relevant (relevance_score c)) found)
      /\ List.map timestamp found
         = List.map py
             ["2024-03-04T10:00:00"; "2024-03-06T10:00:00";
              "2024-03-05T10:00:00"]%string
      /\ tokens_of report_window = 5700
      /\ tokens_of found = 278
      /\ _estimate_tokens (summary_text python_summary) = 16
      /\ returned_summary_tokens [summary_text python_summary] = 26
      /\ ~ (returned_summary_tokens [summary_text python_summary]
            + tokens_of report_window + tokens_of found
            <= effective_budget None)).
Proof.
  cbv zeta. split.
  - split; [vm_compute; reflexivity|]. split; [vm_compute; reflexivity|].
    split; [vm_compute; reflexivity|]. vm_compute. intros H; now apply H.
  - split; [vm_compute; reflexivity|]. split; [vm_compute; reflexivity|].
    split; [vm_compute; reflexivity|]. split; [vm_compute; reflexivity|].
    split; [vm_compute; reflexivity|]. split; [vm_compute; reflexivity|].
    vm_compute. intros H; now apply H.
Qed.

Lemma C7_zero_budget_empty_witness :
  (forall newest,
      hd_error (rev (short_term_memory greeting_state)) = Some newest ->
      0 < stored_tokens newest)
  /\ get_intelligent_context greeting_state (py "hola") (Some 0) = ([], []).
Proof.
  assert (H : forall newest,
             hd_error (rev (short_term_memory greeting_state)) = Some newest ->
             0 < stored_tokens newest).
  { intros newest [= <-]. reflexivity. }
  split; [exact H|].
  apply (C7_zero_budget_empty greeting_state (py "hola")). exact H.
Defined.

(** C7 as stated fails: an interaction whose texts have fewer than four
    characters in all is stored with [tokens_used = 0], fits the budget 0 and
    is returned. *)
Lemma C7_zero_cost_counterexample :
  tokens_used short_reply = Some 0
  /\ get_intelligent_context short_reply_state (py "hola") (Some 0)
     = (recent_messages short_reply, [recent])
  /\ fst (get_intelligent_context short_reply_state (py "hola") (Some 0))
     <> [].
Proof.
  split; [reflexivity|]. split; [reflexivity|]. discriminate.
Qed.

(** C3 (the code departs from it). Window of one interaction, default
    budget: the composer returns the assistant response before the user
    message, because both are inserted at position 0, the user message
    first.  The relevance branch appends the user message and then the
    assistant response. *)
Theorem C3_recency_pair_is_assistant_first :
  get_intelligent_context greeting_state (py "salud") None
  = ([ {| role := assistant; content := py "buenos dias" |};
       {| role := user; content := py "hola" |} ],
     [recent])
  /\ fst (get_intelligent_context greeting_state (py "salud") None)
     <> user_then_assistant greeting.
Proof. split; [reflexivity | discriminate]. Qed.

Lemma C8_extract_terms_idempotent_witness :
  isspace SP = true
  /\ _extract_terms
       (join [SP] (_extract_terms (py "Hola, el mundo_1 está aquí")))
     = _extract_terms (py "Hola, el mundo_1 está aquí").
Proof.
  split; [reflexivity|].
  apply (C8_extract_terms_idempotent (py "Hola, el mundo_1 está aquí")).
  reflexivity.
Defined.

Lemma C5_extract_terms_refines_reference_witness :
  ~ In UNDERSCORE (lower (py "Hola Mundo, el CLIMA"))
  /\ _extract_terms (lower (py "Hola Mundo, el CLIMA"))
     = extract_terms_reference (py "Hola Mundo, el CLIMA").
Proof.
  assert (H : ~ In UNDERSCORE (lower (py "Hola Mundo, el CLIMA"))).
  { vm_compute. intros H.
    repeat (destruct H as [H|H]; [discriminate H|]). exact H. }
  split; [exact H|].
  apply (C5_extract_terms_refines_reference (py "Hola Mundo, el CLIMA")).
  exact H.
Defined.

(** C5 as stated fails twice: [_extract_terms] keeps the capitals of its
    argument, and it keeps [foo_bar] whole, lowercased by the caller or not,
    where the pipeline of the specification separates [foo] and [bar]. *)
Lemma C5_case_and_underscore_counterexample :
  (_extract_terms (py "Hola Mundo") = [py "Hola"; py "Mundo"]
   /\ extract_terms_reference (py "Hola Mundo") = [py "hola"; py "mundo"])
  /\ (_extract_terms (py "foo_bar") = [py "foo_bar"]
      /\ _extract_terms (lower (py "foo_bar")) = [py "foo_bar"]
      /\ extract_terms_reference (py "foo_bar") = [py "foo"; py "bar"])
  /\ _extract_terms (py "Hola Mundo") <> extract_terms_reference (py "Hola Mundo")
  /\ _extract_terms (py "foo_bar") <> extract_terms_reference (py "foo_bar")
  /\ _extract_terms (lower (py "foo_bar"))
     <> extract_terms_reference (py "foo_bar").
Proof.
  repeat split; try reflexivity; vm_compute; discriminate.
Qed.

(** C6 (the code departs from it). The bucket key joins the calendar year
    with the ISO week number.  The first and the last days of 2024 are in the
    ISO weeks 2024-W01 and 2025-W01 and share the key [2024-W1]: no ISO week
    holds five of the records, and one summary of five conversations is
    produced, also when the fiftieth interaction is added to a log that holds
    such records.  Conversely five records of the single ISO week 2025-W01
    are split between the keys [2024-W1] and [2025-W1] and no summary is
    produced. *)
Theorem C6_bucket_key_is_not_the_iso_week :
  (List.map iso_week_of year_boundary_records
   = [Some (2024, 1); Some (2024, 1); Some (2024, 1);
      Some (2025, 1); Some (2025, 1)]
   /\ option_map (List.map (fun s => (period s, conversation_count s)))
        (_group_conversations_by_time year_boundary_records)
      = Some [(py "2024-W1", 5%nat)])
  /\ (length year_log = 49%nat
      /\ option_map (List.map (fun s => (period s, conversation_count s)))
           (summary_file
              (add_interaction year_log_state (py "2025-02-12T09:00:00")
                 (py "hola") (py "buenos dias") []))
         = Some [(py "2024-W1", 5%nat)])
  /\ (List.map iso_week_of new_year_week_records
      = [Some (2025, 1); Some (2025, 1); Some (2025, 1);
         Some (2025, 1); Some (2025, 1)]
      /\ List.map (fun g => (fst g, length (snd g)))
           (group_by_week new_year_week_records)
         = [(py "2024-W1", 2%nat); (py "2025-W1", 3%nat)]
      /\ _group_conversations_by_time new_year_week_records = Some []).
Proof. repeat split; vm_compute; reflexivity. Qed.

(** ** Scenarios of the specification *)

(** Twelve interactions with the window limit 10: the window holds the
    interactions 3 to 12 in order and the log holds all twelve. *)
Example twelve_interactions_window :
  short_term_memory (run_calls new_system twelve_calls)
  = List.map interaction_of (List.map numbered_call (seq 3 10))
  /\ memory_file (run_calls new_system twelve_calls)
     = Some (List.map interaction_of twelve_calls).
Proof. split; vm_compute; reflexivity. Qed.

(** The query "weather tomorrow" returns the weather record alone, with a
    positive score. *)
Example weather_query_finds_weather_record :
  List.map (fun r => (timestamp r, relevance_score r))
    (search_relevant_conversations (Some weather_corpus)
       (py "weather tomorrow") None)
  = [(py "2024-03-04T10:00:00", 2 # 9)].
Proof. vm_compute. reflexivity. Qed.

(** ** Witnesses of the further properties *)

Lemma latin1_div_positive (n m : Z) :
  0 < n -> 0 < m -> (0 < float_div n m)%Q.
Proof.
  intros Hn Hm. cbn [float_div latin1_runtime].
  rewrite Qred_correct.
  destruct n as [|n|n]; try lia. destruct m as [|m|m]; try lia.
  reflexivity.
Qed.

Lemma latin1_add_positive (x y : Q) :
  (0 <= x)%Q -> (0 < y)%Q -> (0 < float_add x y)%Q.
Proof.
  intros Hx Hy. cbn [float_add latin1_runtime].
  rewrite Qred_correct.
  apply (Qlt_le_trans _ (0 + y)); [now rewrite Qplus_0_l|].
  apply Qplus_le_compat; [exact Hx | apply Qle_refl].
Qed.

Lemma X4_no_summary_below_threshold_witness :
  Z.of_nat (length (log_of greeting_state)) + 1 < LONG_TERM_SUMMARY_THRESHOLD
  /\ summary_file
       (add_interaction greeting_state (py "2024-03-04T10:01:00") (py "y")
          (py "ok") [])
     = summary_file greeting_state.
Proof.
  split; [reflexivity|].
  apply (X4_no_summary_below_threshold greeting_state). reflexivity.
Defined.



Lemma X10_window_that_fits_is_included_whole_witness :
  Forall (fun c => 0 <= stored_tokens c) (short_term_memory greeting_state)
  /\ tokens_of (short_term_memory greeting_state) <= effective_budget None
  /\ exists relevants summaries,
       get_intelligent_context greeting_state (py "salud") None
       = (flat_map summary_messages summaries
          ++ flat_map recent_messages (short_term_memory greeting_state)
          ++ flat_map relevant_messages relevants,
          List.map (fun _ => summary) summaries
          ++ repeat recent (length (short_term_memory greeting_state))
          ++ List.map (fun c => relevant (relevance_score c)) relevants).
Proof.
  assert (H1 : Forall (fun c => 0 <= stored_tokens c)
                 (short_term_memory greeting_state)).
  { repeat constructor. vm_compute; discriminate. }
  assert (H2 : tokens_of (short_term_memory greeting_state)
               <= effective_budget None) by (vm_compute; discriminate).
  split; [exact H1|]. split; [exact H2|].
  apply (X10_window_that_fits_is_included_whole greeting_state (py "salud")
           None H1 H2).
Defined.

(** The greeting is a window record: it comes back as a recency unit
    before the clear and as a search result after it. *)
Example greeting_comes_back_after_clear :
  get_intelligent_context greeting_state (py "hola") None
  = (recent_messages greeting, [recent])
  /\ get_intelligent_context (clear_short_term greeting_state) (py "hola")
       None
     = (relevant_messages greeting,
        [relevant (query_score (py "hola") greeting)]).
Proof. split; vm_compute; reflexivity. Qed.

Lemma X12_clear_keeps_the_log_searchable_witness :
  search_relevant_conversations (memory_file greeting_state) (py "hola")
    (Some 3)
  = [set_relevance_score greeting (query_score (py "hola") greeting)]
  /\ 200 < effective_budget None
  /\ Forall (fun c => 0 <= stored_tokens c)
       (search_relevant_conversations (memory_file greeting_state)
          (py "hola") (Some 3))
  /\ tokens_of
       (search_relevant_conversations (memory_file greeting_state)
          (py "hola") (Some 3))
     <= effective_budget None
  /\ short_term_memory (clear_short_term greeting_state) = []
  /\ memory_file (clear_short_term greeting_state)
     = memory_file greeting_state
  /\ (exists summaries,
       (length summaries <= 1)%nat
       /\ get_intelligent_context (clear_short_term greeting_state)
            (py "hola") None
          = (flat_map summary_messages summaries
             ++ flat_map relevant_messages
                  (search_relevant_conversations (memory_file greeting_state)
                     (py "hola") (Some 3)),
             List.map (fun _ => summary) summaries
             ++ List.map (fun c => relevant (relevance_score c))
                  (search_relevant_conversations (memory_file greeting_state)
                     (py "hola") (Some 3))))
  /\ (forall c,
        In c (log_of greeting_state) ->
        (0 < query_score (py "hola") c)%Q ->
        (length (positive_in_corpus_order (py "hola")
                   (log_of greeting_state)) <= 3)%nat ->
        In (set_relevance_score c (query_score (py "hola") c))
          (search_relevant_conversations (memory_file greeting_state)
             (py "hola") (Some 3))).
Proof.
  assert (Hs : search_relevant_conversations (memory_file greeting_state)
                 (py "hola") (Some 3)
               = [set_relevance_score greeting
                    (query_score (py "hola") greeting)])
    by (vm_compute; reflexivity).
  assert (H1 : 200 < effective_budget None) by (vm_compute; reflexivity).
  assert (H2 : Forall (fun c => 0 <= stored_tokens c)
                 (search_relevant_conversations (memory_file greeting_state)
                    (py "hola") (Some 3))).
  { rewrite Hs. repeat constructor. vm_compute; discriminate. }
  assert (H3 : tokens_of
                 (search_relevant_conversations (memory_file greeting_state)
                    (py "hola") (Some 3))
               <= effective_budget None) by (vm_compute; discriminate).
  split; [exact Hs|]. split; [exact H1|]. split; [exact H2|].
  split; [exact H3|].
  apply (X12_clear_keeps_the_log_searchable greeting_state (py "hola") None
           H1 H2 H3).
Defined.

Lemma X13_summary_needs_a_shared_topic_witness :
  In summary
    (snd (get_intelligent_context summary_state (py "dudas sobre Python")
            None))
  /\ exists s t,
       In s (conversation_summaries summary_state)
       /\ In t (_extract_terms (lower (py "dudas sobre Python")))
       /\ In t (main_topics s).
Proof.
  assert (H : In summary
                (snd (get_intelligent_context summary_state
                        (py "dudas sobre Python") None)))
    by (vm_compute; now left).
  split; [exact H|].
  apply (X13_summary_needs_a_shared_topic summary_state
           (py "dudas sobre Python") None H).
Defined.

Lemma X14_query_without_terms_finds_nothing_witness :
  _extract_terms (lower (py "¿Y por que no?")) = []
  /\ search_relevant_conversations (Some python_corpus)
       (py "¿Y por que no?") None = [].
Proof.
  split; [reflexivity|].
  apply (X14_query_without_terms_finds_nothing (Some python_corpus)
           (py "¿Y por que no?") None).
  reflexivity.
Defined.

Lemma X15_found_iff_a_query_term_occurs_witness :
  (forall n m : Z, (0 < n)%Z -> (0 < m)%Z -> (0 < float_div n m)%Q)
  /\ (forall x y, 0 <= x -> 0 < y -> 0 < float_add x y)%Q
  /\ (forall r,
        In r (search_relevant_conversations (Some python_corpus)
                (py "Python") None) ->
        exists c t,
          In c (read_json (Some python_corpus))
          /\ r = set_relevance_score c (query_score (py "Python") c)
          /\ In t (_extract_terms (lower (py "Python")))
          /\ In t (_extract_terms (conv_text c))).
Proof.
  split; [exact latin1_div_positive|]. split; [exact latin1_add_positive|].
  apply (X15_found_iff_a_query_term_occurs (Some python_corpus) (py "Python")
           None latin1_div_positive latin1_add_positive).
Defined.

Lemma X16_history_shows_the_last_records_witness :
  short_term_memory greeting_state <> [] /\ 1 <= 5
  /\ exists printed,
       show_recent_history greeting_state 5
       = Header 1 :: printed ++ [TotalLine 3; Footer]
       /\ entry_heads printed = [(1%nat, py "2024-03-04T10:00:00", 3)]
       /\ length (entry_heads printed) = 1%nat.
Proof.
  assert (H1 : short_term_memory greeting_state <> []) by discriminate.
  assert (H2 : 1 <= 5) by lia.
  split; [exact H1|]. split; [exact H2|].
  apply (X16_history_shows_the_last_records greeting_state 5 H1 H2).
Defined.

Lemma X17_history_zero_prints_everything_witness :
  short_term_memory greeting_state <> []
  /\ exists printed,
       show_recent_history greeting_state 0
       = Header 0 :: printed ++ [TotalLine 3; Footer]
       /\ entry_heads printed = [(1%nat, py "2024-03-04T10:00:00", 3)]
       /\ length (entry_heads printed) = 1%nat.
Proof.
  assert (H1 : short_term_memory greeting_state <> []) by discriminate.
  split; [exact H1|].
  apply (X17_history_zero_prints_everything greeting_state H1).
Defined.

Lemma X19_terms_of_texts_joined_by_a_space_witness :
  isspace SP = true
  /\ _extract_terms (py "python listas" ++ [SP] ++ py "son mutables")
     = _extract_terms (py "python listas") ++ _extract_terms (py "son mutables").
Proof.
  split; [reflexivity|].
  apply (X19_terms_of_texts_joined_by_a_space (py "python listas")
           (py "son mutables")).
  reflexivity.
Defined.

Lemma X20_terms_are_made_of_word_characters_witness :
  isspace SP = true
  /\ Forall
       (fun term => (3 <= length term)%nat
                    /\ Forall (fun c => is_word c = true /\ isspace c = false)
                         term)
       (_extract_terms (py "Hola, el mundo_1 está aquí")).
Proof.
  split; [reflexivity|].
  apply (X20_terms_are_made_of_word_characters
           (py "Hola, el mundo_1 está aquí")).
  reflexivity.
Defined.

